(** * scripts/build_docs_index.py: the skills index builder

    A shallow embedding of [parse_frontmatter], [infer_title_from_markdown]
    and [build_index], with the Python built-ins they call, and the
    properties of the documentation index proved about it.

    Conventions.
    - A Python [str] is a list of Unicode code points ([list N]).
    - A Python exception is a value of [exn]; a function that can raise
      returns a [result].
    - A [dict] with string keys is a [gmap]; a dict with a fixed set of keys
      that is only ever built whole (a skill, a reference) is a record. *)

From Stdlib Require Import NArith List Lia Ascii String Permutation Sorted.
From stdpp Require Import base option list sorting gmap pretty.

Set Warnings "-register-all".

Local Open Scope N_scope.
Local Open Scope list_scope.

(** ** Strings *)

Abbreviation str := (list N).

(** A literal written in the source: the code points of an ASCII string. *)
Definition lit (s : string) : str :=
  map N_of_ascii (list_ascii_of_string s).

Definition LF : N := 10.
Definition CR : N := 13.

(** ** Exceptions *)

Inductive exn : Set :=
| IndexError
| ValueError
| FileNotFoundError
| IsADirectoryError
| NotADirectoryError.

Inductive result (A : Type) : Type :=
| Ok (a : A)
| Raise (e : exn).
Arguments Ok {A} a.
Arguments Raise {A} e.

#[global] Instance result_ret : MRet result := fun _ a => Ok a.
#[global] Instance result_bind : MBind result := fun _ _ f m =>
  match m with
  | Ok a => f a
  | Raise e => Raise e
  end.

(** ** The built-ins of [str] and [list] that the script calls *)

Module Py.

(** [str.splitlines] ends a line at each of these (and reads CR LF as one). *)
Definition linebreaks : list N :=
  [10; 11; 12; 13; 28; 29; 30; 133; 8232; 8233].

Definition is_linebreak (c : N) : bool := bool_decide (c ∈ linebreaks).

(** The code points that [str.strip] with no argument removes. *)
Definition is_space (c : N) : bool :=
  (9 <=? c) && (c <=? 13) || (28 <=? c) && (c <=? 32)
  || (c =? 133) || (c =? 160) || (c =? 5760)
  || (8192 <=? c) && (c <=? 8202)
  || (c =? 8232) || (c =? 8233) || (c =? 8239) || (c =? 8287)
  || (c =? 12288).

(** [s.startswith(p)] *)
Fixpoint startswith (p s : str) : bool :=
  match p, s with
  | [], _ => true
  | _ :: _, [] => false
  | a :: p', b :: s' => (a =? b) && startswith p' s'
  end.

(** [s.splitlines()]: no line for the empty string, no empty last line
    after a final line break. *)
Fixpoint splitlines (s : str) : list str :=
  match s with
  | [] => []
  | c :: r =>
      if is_linebreak c then
        match r with
        | c' :: r' =>
            if (c =? CR) && (c' =? LF) then [] :: splitlines r'
            else [] :: splitlines r
        | [] => [[]]
        end
      else
        match splitlines r with
        | [] => [[c]]
        | l :: ls => (c :: l) :: ls
        end
  end.

(** [sep.join(parts)] *)
Fixpoint join (sep : str) (parts : list str) : str :=
  match parts with
  | [] => []
  | [p] => p
  | p :: ps => p ++ sep ++ join sep ps
  end.

Fixpoint lstrip_by (f : N -> bool) (s : str) : str :=
  match s with
  | [] => []
  | c :: r => if f c then lstrip_by f r else s
  end.

Definition rstrip_by (f : N -> bool) (s : str) : str :=
  rev (lstrip_by f (rev s)).

Definition strip_by (f : N -> bool) (s : str) : str :=
  lstrip_by f (rstrip_by f s).

(** [s.strip()] *)
Definition strip (s : str) : str := strip_by is_space s.

(** [s.strip(chars)]: every leading and trailing code point that occurs in
    [chars] goes. *)
Definition strip_chars (chars s : str) : str :=
  strip_by (fun c => bool_decide (c ∈ chars)) s.

(** [s.find(sub)], with [None] for -1. *)
Fixpoint find (sub s : str) : option nat :=
  if startswith sub s then Some 0%nat
  else match s with
       | [] => None
       | _ :: r => S <$> find sub r
       end.

(** [sub in s] *)
Definition contains (sub s : str) : bool :=
  match find sub s with Some _ => true | None => false end.

(** [s.split(sep, 1)] *)
Definition split1 (sep s : str) : list str :=
  match find sep s with
  | None => [s]
  | Some i => [take i s; drop (i + length sep) s]
  end.

(** [s.replace(old, new, 1)] *)
Definition replace1 (old new s : str) : str :=
  match find old s with
  | None => s
  | Some i => take i s ++ new ++ drop (i + length old) s
  end.

(** [s.replace(old, new)] where [old] and [new] are one code point each. *)
Definition replace_char (old new : N) (s : str) : str :=
  map (fun c => if c =? old then new else c) s.

(** [xs[i]] for [i >= 0] *)
Definition getitem {A} (xs : list A) (i : nat) : result A :=
  match xs !! i with
  | Some x => Ok x
  | None => Raise IndexError
  end.

(** [xs[a:b]] for [0 <= a] and [0 <= b] *)
Definition slice {A} (xs : list A) (a b : nat) : list A :=
  take (b - a) (drop a xs).

(** [a, b = xs] *)
Definition unpack2 {A} (xs : list A) : result (A * A) :=
  match xs with
  | [a; b] => Ok (a, b)
  | _ => Raise ValueError
  end.

(** [range(a, b)] *)
Definition range (a b : nat) : list nat := seq a (b - a).

(** [s.endswith(p)] *)
Definition endswith (p s : str) : bool := startswith (rev p) (rev s).

(** [s.rfind(c)] for a single code point [c], with [None] for -1. *)
Fixpoint rfind_char (c : N) (s : str) : option nat :=
  match s with
  | [] => None
  | x :: r =>
      match rfind_char c r with
      | Some i => Some (S i)
      | None => if x =? c then Some 0%nat else None
      end
  end.

(** [a < b] on [str]: lexicographic on code points. *)
Fixpoint str_ltb (a b : str) : bool :=
  match a, b with
  | _, [] => false
  | [], _ :: _ => true
  | x :: a', y :: b' => (x <? y) || (x =? y) && str_ltb a' b'
  end.

(** [sorted(xs)]: a stable sort that compares with [<] only.  Its result is
    the one of any stable sort; this one inserts from the right. *)
Fixpoint insert_sorted {A} (ltb : A -> A -> bool) (x : A) (l : list A) : list A :=
  match l with
  | [] => [x]
  | y :: l' => if ltb y x then y :: insert_sorted ltb x l' else x :: l
  end.

Definition sorted {A} (ltb : A -> A -> bool) (l : list A) : list A :=
  foldr (insert_sorted ltb) [] l.

(** *** str.title

    [str.title] reads the case properties and mappings of the Unicode
    Character Database of the interpreter.  Its ASCII rows are written out
    below; the rows of the other code points are the fields of this class. *)
Class UnicodeData := {
  (** [_PyUnicode_IsCased] *)
  ucd_cased : N -> bool;
  (** [_PyUnicode_ToTitleFull] *)
  ucd_title : N -> str;
  (** [lower_ucs4]: the lower-case mapping of the code point at an index of a
      string (the final-sigma rule reads its neighbours). *)
  ucd_lower : str -> nat -> N -> str
}.

Definition is_ascii_upper (c : N) : bool := (65 <=? c) && (c <=? 90).
Definition is_ascii_lower (c : N) : bool := (97 <=? c) && (c <=? 122).

Section Title.
Context {U : UnicodeData}.

Definition is_cased (c : N) : bool :=
  if c <? 128 then is_ascii_upper c || is_ascii_lower c else ucd_cased c.

Definition to_title (c : N) : str :=
  if c <? 128 then (if is_ascii_lower c then [c - 32] else [c])
  else ucd_title c.

Definition to_lower (whole : str) (i : nat) (c : N) : str :=
  if c <? 128 then (if is_ascii_upper c then [c + 32] else [c])
  else ucd_lower whole i c.

(** The loop of [do_title]: a code point after a cased one is lower-cased,
    any other is title-cased. *)
Fixpoint title_from (whole : str) (i : nat) (previous_is_cased : bool)
    (s : str) : str :=
  match s with
  | [] => []
  | c :: r =>
      (if previous_is_cased then to_lower whole i c else to_title c)
      ++ title_from whole (S i) (is_cased c) r
  end.

(** [s.title()] *)
Definition title (s : str) : str := title_from s 0 false s.
End Title.

End Py.

(** ** parse_frontmatter *)

Definition DELIM : str := lit "---".
Definition COLON : str := lit ":".
Definition QUOTE : str := [34].

(** The [for i in range(1, len(lines))] loop with its [break]: the value of
    [end_index] after it. *)
Fixpoint find_end (lines : list str) (indices : list nat)
  : result (option nat) :=
  match indices with
  | [] => Ok None
  | i :: rest =>
      l ← Py.getitem lines i;
      if bool_decide (Py.strip l = DELIM) then Ok (Some i)
      else find_end lines rest
  end.

(** The [for line in frontmatter_lines] loop: the dict after it. *)
Fixpoint read_header (frontmatter_lines : list str) (frontmatter : gmap str str)
  : result (gmap str str) :=
  match frontmatter_lines with
  | [] => Ok frontmatter
  | line :: rest =>
      if negb (Py.contains COLON line) then read_header rest frontmatter
      else
        '(key, value) ← Py.unpack2 (Py.split1 COLON line);
        read_header rest
          (<[Py.strip key := Py.strip_chars QUOTE (Py.strip value)]> frontmatter)
  end.

Definition parse_frontmatter (text : str) : result (gmap str str * str) :=
  if negb (Py.startswith DELIM text) then Ok (∅, text)
  else
    let lines := Py.splitlines text in
    end_index ← find_end lines (Py.range 1 (length lines));
    match end_index with
    | None => Ok (∅, text)
    | Some e =>
        let frontmatter_lines := Py.slice lines 1 e in
        let content := Py.join [LF] (drop (S e) lines) in
        frontmatter ← read_header frontmatter_lines ∅;
        Ok (frontmatter, content)
    end.

(** ** The file system

    A snapshot of the tree under a path: a regular file with the text that
    [read_text(encoding="utf-8")] returns for it, or a directory with its
    entries in the order in which the operating system lists them.

    A snapshot holds what the process can read and write: a file whose
    bytes are no UTF-8 text, and a file or directory that the process has
    no permission for, are not among its nodes.  On those the program
    raises other errors ([UnicodeDecodeError], [PermissionError]); the
    properties below speak of the runs on a snapshot, and say "only when"
    where the file system may add causes of failure of its own. *)

Inductive node : Type :=
| File (text : str)
| Dir (entries : list (str * node)).

(** [p.is_dir()] *)
Definition is_dir (x : node) : bool :=
  match x with Dir _ => true | File _ => false end.

(** [p.iterdir()] *)
Definition iterdir (x : node) : result (list (str * node)) :=
  match x with
  | Dir entries => Ok entries
  | File _ => Raise NotADirectoryError
  end.

(** [p / name]: what the snapshot has there, if anything. *)
Definition child (x : node) (nm : str) : option node :=
  match x with
  | Dir entries =>
      snd <$> List.find (fun e => bool_decide (e.1 = nm)) entries
  | File _ => None
  end.

(** [p.exists()] for [p] given as the result of [child]. *)
Definition exists_ (target : option node) : bool :=
  match target with Some _ => true | None => false end.

(** [p.read_text(encoding="utf-8")] *)
Definition read_text (target : option node) : result str :=
  match target with
  | None => Raise FileNotFoundError
  | Some (File text) => Ok text
  | Some (Dir _) => Raise IsADirectoryError
  end.

(** [p.glob("*.md")]: the entries of a directory whose name ends in [.md],
    in listing order; nothing when [p] is not a directory. *)
Definition glob_md (x : node) : list (str * node) :=
  match x with
  | Dir entries => List.filter (fun e => Py.endswith (lit ".md") e.1) entries
  | File _ => []
  end.

(** [p.stem] from [p.name] *)
Definition stem (nm : str) : str :=
  match Py.rfind_char 46 nm with
  | Some i =>
      if bool_decide (0 < i < length nm - 1)%nat then take i nm else nm
  | None => nm
  end.

(** [a < b] on two paths of one directory. *)
Definition path_ltb (a b : str * node) : bool := Py.str_ltb a.1 b.1.

(** ** infer_title_from_markdown and build_index *)

Record reference := { title : str; file : str }.

Record skill := {
  name : str;
  folder : str;
  description : str;
  references : list reference
}.

Definition HEADING : str := lit "# ".
Definition RESERVED : list str :=
  [lit "docs"; lit "scripts"; lit "template"; lit ".git"; lit "__pycache__"].

Section Index.
Context {U : Py.UnicodeData}.

(** [path.stem.replace("-", " ").title()] *)
Definition title_of_name (nm : str) : str :=
  Py.title (Py.replace_char 45 32 (stem nm)).

(** The [for line in ...] loop of [infer_title_from_markdown]: the value
    it returns, or [None] when it runs to its end. *)
Fixpoint scan_heading (lines : list str) : option str :=
  match lines with
  | [] => None
  | line :: rest =>
      let line := Py.strip line in
      if Py.startswith HEADING line
      then Some (Py.strip (Py.replace1 HEADING [] line))
      else scan_heading rest
  end.

(** [path] is given by its [name] and by what the snapshot has there. *)
Definition infer_title_from_markdown (nm : str) (target : option node)
  : result str :=
  match read_text target with
  | Ok text =>
      match scan_heading (Py.splitlines text) with
      | Some t => Ok t
      | None => Ok (title_of_name nm)
      end
  | Raise FileNotFoundError => Ok (title_of_name nm)
  | Raise e => Raise e
  end.

(** The [for ref in sorted(references_dir.glob("*.md"))] loop. *)
Fixpoint collect_references (refs : list (str * node))
    (acc : list reference) : result (list reference) :=
  match refs with
  | [] => Ok acc
  | ref :: rest =>
      t ← infer_title_from_markdown ref.1 (Some ref.2);
      collect_references rest
        (acc ++ [{| title := t; file := lit "references/" ++ ref.1 |}])
  end.

(** One turn of the loop of [build_index]: [None] for [continue]. *)
Definition index_skill_dir (skill_dir : str * node) : result (option skill) :=
  if negb (is_dir skill_dir.2) then Ok None
  else if bool_decide (skill_dir.1 ∈ RESERVED) then Ok None
  else
    let skill_md := child skill_dir.2 (lit "SKILL.md") in
    if negb (exists_ skill_md) then Ok None
    else
      text ← read_text skill_md;
      '(frontmatter, _) ← parse_frontmatter text;
      let nm := default skill_dir.1 (frontmatter !! lit "name") in
      let descr := Py.strip (default [] (frontmatter !! lit "description")) in
      let references_dir := child skill_dir.2 (lit "references") in
      refs ← (if exists_ references_dir
              then collect_references
                     (Py.sorted path_ltb (from_option glob_md [] references_dir)) []
              else Ok []);
      Ok (Some {| name := nm; folder := skill_dir.1;
                  description := descr; references := refs |}).

Fixpoint index_loop (entries : list (str * node)) (skills : list skill)
  : result (list skill) :=
  match entries with
  | [] => Ok skills
  | skill_dir :: rest =>
      o ← index_skill_dir skill_dir;
      index_loop rest (match o with Some s => skills ++ [s] | None => skills end)
  end.

Definition build_index (root : node) : result (list skill) :=
  entries ← iterdir root;
  index_loop (Py.sorted path_ltb entries) [].
End Index.

(** ** json.dumps(skills, indent=2, ensure_ascii=False) *)

Definition hex_digit (n : N) : N := if n <? 10 then 48 + n else 87 + n.

(** One code point inside a JSON string: [ESCAPE_DCT], and the code point
    itself when it is not in it. *)
Definition json_escape (c : N) : str :=
  if c =? 92 then lit "\\"
  else if c =? 34 then [92; 34]
  else if c =? 8 then lit "\b"
  else if c =? 12 then lit "\f"
  else if c =? 10 then lit "\n"
  else if c =? 13 then lit "\r"
  else if c =? 9 then lit "\t"
  else if c <? 32 then lit "\u00" ++ [hex_digit (c / 16); hex_digit (c mod 16)]
  else [c].

Definition json_string (s : str) : str :=
  [34] ++ concat (map json_escape s) ++ [34].

(** A line feed and the indentation of a nesting level. *)
Definition newline_indent (level : nat) : str :=
  [LF] ++ concat (replicate level (lit "  ")).

(** A list whose items, already encoded, stand at [level + 1]. *)
Definition json_list (level : nat) (items : list str) : str :=
  match items with
  | [] => lit "[]"
  | _ =>
      lit "[" ++ newline_indent (S level)
      ++ Py.join (lit "," ++ newline_indent (S level)) items
      ++ newline_indent level ++ lit "]"
  end.

(** A dict that is not empty, its keys in insertion order. *)
Definition json_object (level : nat) (members : list (str * str)) : str :=
  lit "{" ++ newline_indent (S level)
  ++ Py.join (lit "," ++ newline_indent (S level))
       (map (fun kv => json_string kv.1 ++ lit ": " ++ kv.2) members)
  ++ newline_indent level ++ lit "}".

Definition json_reference (level : nat) (r : reference) : str :=
  json_object level
    [(lit "title", json_string (title r)); (lit "file", json_string (file r))].

Definition json_skill (level : nat) (s : skill) : str :=
  json_object level
    [(lit "name", json_string (name s));
     (lit "folder", json_string (folder s));
     (lit "description", json_string (description s));
     (lit "references",
      json_list (S level) (map (json_reference (S (S level))) (references s)))].

Definition json_dumps (skills : list skill) : str :=
  json_list 0 (map (json_skill 1) skills).

(** Unicode data that leaves every code point outside ASCII alone; the
    examples below are ASCII and do not depend on it. *)
Definition ascii_only : Py.UnicodeData :=
  {| Py.ucd_cased := fun _ => false;
     Py.ucd_title := fun c => [c];
     Py.ucd_lower := fun _ _ c => [c] |}.

Definition text_of (lines : list str) : str := Py.join [LF] lines.

(** ** The vocabulary of the specification: headers *)

(** [trimmed f s s']: [s'] is [s] without its leading and trailing code
    points that satisfy [f]. *)
Definition clean (f : N -> bool) (s : str) : Prop :=
  (forall c, head s = Some c -> f c = false) /\
  (forall c, last s = Some c -> f c = false).

Definition trimmed (f : N -> bool) (s s' : str) : Prop :=
  exists pre post,
    s = pre ++ s' ++ post /\
    Forall (fun c => f c = true) pre /\
    Forall (fun c => f c = true) post /\
    clean f s'.

Definition is_quote (c : N) : bool := bool_decide (c ∈ QUOTE).

(** [header_line line k v]: [line] has a colon, [k] is what stands before
    its first colon, trimmed of white space, and [v] is what stands after
    it, trimmed of white space and then of double quotes. *)
Inductive header_line : str -> str -> str -> Prop :=
| header_line_intro key value k v' v :
    58 ∉ key ->
    trimmed Py.is_space key k ->
    trimmed Py.is_space value v' ->
    trimmed is_quote v' v ->
    header_line (key ++ [58] ++ value) k v.

(** [closing_at lines e]: line [e] is the first line after line 0 that is
    [---] once trimmed. *)
Definition closing_at (lines : list str) (e : nat) : Prop :=
  (1 <= e)%nat /\
  (exists l, lines !! e = Some l /\ Py.strip l = DELIM) /\
  forall j l, (1 <= j < e)%nat -> lines !! j = Some l -> Py.strip l <> DELIM.

Definition no_closing (lines : list str) : Prop :=
  forall j l, (1 <= j)%nat -> lines !! j = Some l -> Py.strip l <> DELIM.

(** What [read_header] does with one line, as a function. *)
Definition header_entry (line : str) : option (str * str) :=
  match Py.find COLON line with
  | Some i =>
      Some (Py.strip (take i line),
            Py.strip_chars QUOTE (Py.strip (drop (i + 1) line)))
  | None => None
  end.

Definition add_entry (m : gmap str str) (line : str) : gmap str str :=
  match header_entry line with
  | Some (k, v) => <[k := v]> m
  | None => m
  end.

(** [sets ls k v]: the last line of [ls] with key [k] has value [v]. *)
Definition sets (ls : list str) (k v : str) : Prop :=
  exists i line, ls !! i = Some line /\ header_entry line = Some (k, v) /\
    forall j line' v', (i < j)%nat -> ls !! j = Some line' ->
      header_entry line' <> Some (k, v').

Definition untouched (ls : list str) (k : str) : Prop :=
  forall j line' v', ls !! j = Some line' -> header_entry line' <> Some (k, v').

(** [header_gives lines e k v]: among the lines strictly between line 0 and
    line [e], the last one with key [k] has value [v]. *)
Definition header_gives (lines : list str) (e : nat) (k v : str) : Prop :=
  exists i line,
    (1 <= i < e)%nat /\ lines !! i = Some line /\ header_line line k v /\
    forall j line' v', (i < j < e)%nat -> lines !! j = Some line' ->
      ~ header_line line' k v'.

(** The unquoting that strips one layer of double quotes, and only when
    there is one on both ends. *)
Definition unquote_once (s : str) : str :=
  if Py.startswith QUOTE s && Py.endswith QUOTE s && (2 <=? length s)%nat
  then take (length s - 2) (drop 1 s)
  else s.

(** ** Example inputs *)

(** A header with [name: "Foo"] and the body [Body text]. *)
Definition doc_foo : str :=
  text_of [lit "---"; lit "name: " ++ QUOTE ++ lit "Foo" ++ QUOTE;
           lit "---"; lit "Body text"].

(** The first line starts with three dashes and goes on. *)
Definition doc_long_dashes : str :=
  text_of [lit "---x"; lit "a: b"; lit "---"; lit "rest"].

(** Values with two layers of quotes and with a quote on one end only. *)
Definition value_two_layers : str := QUOTE ++ QUOTE ++ lit "x" ++ QUOTE ++ QUOTE.
Definition value_open_quote : str := QUOTE ++ lit "y".
Definition doc_quotes : str :=
  text_of [lit "---"; lit "a: " ++ value_two_layers;
           lit "b: " ++ value_open_quote; lit "---"; lit "rest"].

(** A document that ends in a line break. *)
Definition doc_trailing_newline : str :=
  text_of [lit "---"; lit "k: v"; lit "---"; lit "Body"] ++ [LF].

(** The same document with CR LF line ends and a two-line body. *)
Definition doc_crlf : str :=
  Py.join [CR; LF] [lit "---"; lit "k: v"; lit "---"; lit "A"; lit "B"].

(** A reference document with a heading. *)
Definition doc_hello : str := text_of [lit "# Hello World"; lit "more text"].

(** ** The vocabulary of the specification: the index *)

(** [a <= b] on [str] *)
Definition str_le (a b : str) : Prop := Py.str_ltb b a = false.

(** A directory entry that [build_index] makes a record of: a directory
    whose name is not reserved and that has an entry [SKILL.md]. *)
Definition qualifies (e : str * node) : bool :=
  is_dir e.2 && negb (bool_decide (e.1 ∈ RESERVED))
  && exists_ (child e.2 (lit "SKILL.md")).

Definition is_file (x : node) : bool :=
  match x with File _ => true | Dir _ => false end.

(** No directory of the tree lists a name twice. *)
Inductive unique_names : node -> Prop :=
| unique_File text : unique_names (File text)
| unique_Dir entries :
    NoDup (map fst entries) ->
    Forall (fun e => unique_names e.2) entries ->
    unique_names (Dir entries).

(** Two snapshots of one tree: the same files with the same text, and the
    same directories, each listed in an order of its own. *)
Inductive same_snapshot : node -> node -> Prop :=
| same_File text : same_snapshot (File text) (File text)
| same_Dir entries mid entries' :
    Permutation entries mid ->
    Forall2 (fun a b => a.1 = b.1 /\ same_snapshot a.2 b.2) mid entries' ->
    same_snapshot (Dir entries) (Dir entries').

(** The [file] of the reference made of a directory entry. *)
Definition reference_file (e : str * node) : str := lit "references/" ++ e.1.

(** The entries that [build_index] makes references of, in its order. *)
Definition reference_entries (d : node) : list (str * node) :=
  Py.sorted path_ltb (from_option glob_md [] (child d (lit "references"))).

Section SkillOf.
Context {U : Py.UnicodeData}.

(** What one turn of the loop of [build_index] gives for an entry that
    qualifies. *)
Definition skill_of (e : str * node) : result skill :=
  text ← read_text (child e.2 (lit "SKILL.md"));
  '(frontmatter, _) ← parse_frontmatter text;
  refs ← collect_references (reference_entries e.2) [];
  Ok {| name := default e.1 (frontmatter !! lit "name");
        folder := e.1;
        description :=
          Py.strip (default [] (frontmatter !! lit "description"));
        references := refs |}.

End SkillOf.

Definition name_le (a b : str * node) : Prop := str_le a.1 b.1.
Definition name_lt (a b : str * node) : Prop := path_ltb a b = true.

(** The same name, and the same thing under it. *)
Definition same_entry (a b : str * node) : Prop :=
  a.1 = b.1 /\ same_snapshot a.2 b.2.

(** ** Example trees *)

Definition skill_alpha : str :=
  text_of [lit "---"; lit "name: Alpha"; lit "description:  desc "; lit "---";
           lit "body"].

Definition refs_alpha : node :=
  Dir [(lit "two.md", File doc_hello);
       (lit "notes.txt", File []);
       (lit "one-more.md", File (lit "x"))].

Definition refs_alpha' : node :=
  Dir [(lit "one-more.md", File (lit "x"));
       (lit "two.md", File doc_hello);
       (lit "notes.txt", File [])].

Definition dir_alpha : node :=
  Dir [(lit "references", refs_alpha); (lit "SKILL.md", File skill_alpha)].

Definition dir_alpha' : node :=
  Dir [(lit "SKILL.md", File skill_alpha); (lit "references", refs_alpha')].

Definition dir_zero : node := Dir [(lit "SKILL.md", File (lit "no header"))].
Definition dir_b : node := Dir [(lit "other.md", File [])].
Definition dir_docs : node := Dir [(lit "SKILL.md", File [])].

(** Listed out of order; [docs] is reserved, [b] has no [SKILL.md]. *)
Definition tree_alpha : node :=
  Dir [(lit "docs", dir_docs);
       (lit "b", dir_b);
       (lit "README.md", File (lit "# Skills"));
       (lit "a", dir_alpha);
       (lit "0", dir_zero)].

(** The same tree, listed in another order. *)
Definition tree_alpha' : node :=
  Dir [(lit "0", dir_zero);
       (lit "a", dir_alpha');
       (lit "README.md", File (lit "# Skills"));
       (lit "b", dir_b);
       (lit "docs", dir_docs)].

Definition index_alpha : list skill :=
  [ {| name := lit "0"; folder := lit "0"; description := [];
       references := [] |};
    {| name := lit "Alpha"; folder := lit "a"; description := lit "desc";
       references :=
         [ {| title := lit "One More"; file := lit "references/one-more.md" |};
           {| title := lit "Hello World"; file := lit "references/two.md" |} ] |} ].

(** A skill directory whose [SKILL.md] is a directory. *)
Definition dir_skill_md_dir : node := Dir [(lit "SKILL.md", Dir [])].
Definition tree_skill_md_dir : node := Dir [(lit "a", dir_skill_md_dir)].

(** A skill directory with a directory among its [*.md] references. *)
Definition dir_reference_dir : node :=
  Dir [(lit "SKILL.md", File (lit "text"));
       (lit "references", Dir [(lit "x.md", Dir [])])].
Definition tree_reference_dir : node := Dir [(lit "a", dir_reference_dir)].

(** ** Example outputs *)

(** A quoted word of a JSON text. *)
Definition q (s : string) : str := QUOTE ++ lit s ++ QUOTE.

Definition index_b : list skill :=
  [ {| name := lit "b"; folder := lit "b"; description := lit "d";
       references :=
         [ {| title := lit "T"; file := lit "references/t.md" |} ] |};
    {| name := [34; 92; 10; 1; 31; 127; 233]; folder := lit "c";
       description := []; references := [] |} ].

Definition json_b : str :=
  text_of
    [ lit "[";
      lit "  {";
      lit "    " ++ q "name" ++ lit ": " ++ q "b" ++ lit ",";
      lit "    " ++ q "folder" ++ lit ": " ++ q "b" ++ lit ",";
      lit "    " ++ q "description" ++ lit ": " ++ q "d" ++ lit ",";
      lit "    " ++ q "references" ++ lit ": [";
      lit "      {";
      lit "        " ++ q "title" ++ lit ": " ++ q "T" ++ lit ",";
      lit "        " ++ q "file" ++ lit ": " ++ q "references/t.md";
      lit "      }";
      lit "    ]";
      lit "  },";
      lit "  {";
      lit "    " ++ q "name" ++ lit ": " ++ QUOTE ++ lit "\" ++ QUOTE
        ++ lit "\\\n\u0001\u001f" ++ [127; 233] ++ QUOTE ++ lit ",";
      lit "    " ++ q "folder" ++ lit ": " ++ q "c" ++ lit ",";
      lit "    " ++ q "description" ++ lit ": " ++ q "" ++ lit ",";
      lit "    " ++ q "references" ++ lit ": []";
      lit "  }";
      lit "]" ].

(** The entries of [tree_alpha]. *)
Definition entries_alpha : list (str * node) :=
  [(lit "docs", dir_docs); (lit "b", dir_b);
   (lit "README.md", File (lit "# Skills"));
   (lit "a", dir_alpha); (lit "0", dir_zero)].

(** ** main

    [main] runs in a world made of the tree under the repository root (the
    directory two levels above the script) and of what was printed so
    far, one string for each call of [print].  It can stop with an
    exception of [build_index] or with one of its own. *)

Inductive failure : Set :=
| Propagated (e : exn)
| FileExistsError
| UnicodeEncodeError.

Inductive outcome (A : Type) : Type :=
| Returned (a : A)
| Raised (f : failure).
Arguments Returned {A} a.
Arguments Raised {A} f.

Record world := { tree : node; stdout : list str }.

(** A statement: it changes the world and returns or raises. *)
Definition io (A : Type) : Type := world -> world * outcome A.

#[global] Instance io_ret : MRet io := fun _ a w => (w, Returned a).
#[global] Instance io_bind : MBind io := fun _ _ f m w =>
  match m w with
  | (w', Returned a) => f a w'
  | (w', Raised e) => (w', Raised e)
  end.

(** The encoding of standard output: [print] raises on a string that it
    cannot encode.  It is a property of the terminal, not of the script. *)
Class Terminal := { terminal_accepts : str -> bool }.

(** What [encode("utf-8")] accepts: no surrogate. *)
Definition utf8_encodable (s : str) : bool :=
  forallb (fun c => negb ((55296 <=? c) && (c <=? 57343))) s.

(** What a text-mode read makes of the line ends of a file: CR LF and CR
    become LF. *)
Fixpoint universal_newlines (s : str) : str :=
  match s with
  | [] => []
  | c :: r =>
      if c =? CR then
        LF :: match r with
              | c' :: r' =>
                  if c' =? LF then universal_newlines r'
                  else universal_newlines r
              | [] => []
              end
      else c :: universal_newlines r
  end.

(** The listing of a directory after [nm] was created or written in it: an
    entry that was there keeps its place, a new one comes last. *)
Fixpoint put (entries : list (str * node)) (nm : str) (x : node)
  : list (str * node) :=
  match entries with
  | [] => [(nm, x)]
  | e :: rest =>
      if bool_decide (e.1 = nm) then (nm, x) :: rest
      else e :: put rest nm x
  end.

(** [str(p / nm)] for an absolute, resolved [p] *)
Definition joinpath (p nm : str) : str :=
  if Py.endswith (lit "/") p then p ++ nm else p ++ lit "/" ++ nm.

Definition DOCS : str := lit "docs".
Definition SKILLS_JSON : str := lit "skills.json".

(** [(root / "docs").mkdir(exist_ok=True)], in a root that the process
    may write to. *)
Definition mkdir_docs : io unit := fun w =>
  match tree w with
  | File _ => (w, Raised (Propagated NotADirectoryError))
  | Dir entries =>
      match child (tree w) DOCS with
      | None =>
          ({| tree := Dir (entries ++ [(DOCS, Dir [])]); stdout := stdout w |},
           Returned tt)
      | Some (Dir _) => (w, Returned tt)
      | Some (File _) => (w, Raised FileExistsError)
      end
  end.

(** The world with [docs/skills.json] holding [text]. *)
Definition with_output (w : world) (entries docs : list (str * node))
    (text : str) : world :=
  {| tree := Dir (put entries DOCS (Dir (put docs SKILLS_JSON (File text))));
     stdout := stdout w |}.

(** [(root / "docs" / "skills.json").write_text(text, encoding="utf-8")]:
    the file is opened for writing, which empties it, then the text is
    encoded and written.  The file holds what a later [read_text] returns.
    The directory [docs] and the file are ones the process may write to. *)
Definition write_output (text : str) : io unit := fun w =>
  match tree w with
  | File _ => (w, Raised (Propagated NotADirectoryError))
  | Dir entries =>
      match child (tree w) DOCS with
      | None => (w, Raised (Propagated FileNotFoundError))
      | Some (File _) => (w, Raised (Propagated NotADirectoryError))
      | Some (Dir docs) =>
          match child (Dir docs) SKILLS_JSON with
          | Some (Dir _) => (w, Raised (Propagated IsADirectoryError))
          | _ =>
              if utf8_encodable text
              then (with_output w entries docs (universal_newlines text),
                    Returned tt)
              else (with_output w entries docs [], Raised UnicodeEncodeError)
          end
      end
  end.

(** [skills = build_index(root)] *)
Definition run_build_index {U : Py.UnicodeData} : io (list skill) := fun w =>
  match build_index (tree w) with
  | Ok skills => (w, Returned skills)
  | Raise e => (w, Raised (Propagated e))
  end.

Section Main.
Context {U : Py.UnicodeData} {T : Terminal}.

(** [print(s)] *)
Definition print (s : str) : io unit := fun w =>
  if terminal_accepts s
  then ({| tree := tree w; stdout := stdout w ++ [s] |}, Returned tt)
  else (w, Raised UnicodeEncodeError).

(** The [for skill in skills] loop of [main]. *)
Fixpoint print_names (skills : list skill) : io unit :=
  match skills with
  | [] => mret tt
  | skill :: rest => print (lit "   - " ++ name skill);; print_names rest
  end.

(** The lines that [main] prints for an index. *)
Definition report (root_path : str) (skills : list skill) : list str :=
  [ [9989] ++ lit " Built skills index: "
      ++ joinpath (joinpath root_path DOCS) SKILLS_JSON;
    lit "   Found " ++ lit (pretty (length skills)) ++ lit " skill(s)" ]
  ++ map (fun skill => lit "   - " ++ name skill) skills.

(** [root_path] is [str(root)]. *)
Definition main (root_path : str) : io unit :=
  let output := joinpath (joinpath root_path DOCS) SKILLS_JSON in
  mkdir_docs;;
  skills ← run_build_index;
  write_output (json_dumps skills);;
  print ([9989] ++ lit " Built skills index: " ++ output);;
  print (lit "   Found " ++ lit (pretty (length skills)) ++ lit " skill(s)");;
  print_names skills.
End Main.

(** A terminal that prints every string. *)
Definition any_terminal : Terminal := {| terminal_accepts := fun _ => true |}.

(** A terminal that encodes as UTF-8. *)
Definition utf8_terminal : Terminal := {| terminal_accepts := utf8_encodable |}.

(** The listing of the root once [docs] is made, and the entries of [docs]
    then: none when [main] has to make it. *)
Definition made (entries : list (str * node)) : list (str * node) :=
  match child (Dir entries) DOCS with
  | None => entries ++ [(DOCS, Dir [])]
  | Some _ => entries
  end.

Definition docs_entries (entries : list (str * node))
  : option (list (str * node)) :=
  match child (Dir entries) DOCS with
  | None => Some []
  | Some (Dir docs) => Some docs
  | Some (File _) => None
  end.

(** The line that [main] prints for a skill. *)
Definition name_line (skill : skill) : str := lit "   - " ++ name skill.

Section Report.
Context {T : Terminal}.

(** The calls of [print] at the end of [main]. *)
Definition print_report (root_path : str) (skills : list skill) : io unit :=
  print ([9989] ++ lit " Built skills index: "
         ++ joinpath (joinpath root_path DOCS) SKILLS_JSON);;
  print (lit "   Found " ++ lit (pretty (length skills)) ++ lit " skill(s)");;
  print_names skills.

(** The tree with the index written under [docs]. *)
Definition written (entries docs : list (str * node)) (text : str) : node :=
  Dir (put entries DOCS (Dir (put docs SKILLS_JSON (File text)))).
End Report.

Definition world_alpha : world := {| tree := tree_alpha; stdout := [] |}.

(** The world after [main] ran in [world_alpha] with the root [/repo]. *)
Definition ran_alpha : world :=
  Eval vm_compute in
    fst (@main ascii_only utf8_terminal (lit "/repo") world_alpha).

(** A world where [docs] is a regular file. *)
Definition world_docs_file : world :=
  {| tree := Dir [(DOCS, File (lit "notes")); (lit "a", dir_alpha)];
     stdout := [] |}.

(** The lexicographic order of strings, said without the comparison of
    the code: [a] comes before [b] when [a] is a proper prefix of [b], or
    when at the first place where they differ [a] has the smaller code
    point. *)
Definition lex_lt (a b : str) : Prop :=
  (exists c r, b = a ++ c :: r) \/
  (exists p x y a' b', a = p ++ x :: a' /\ b = p ++ y :: b' /\ x < y).

Definition lex_le (a b : str) : Prop := a = b \/ lex_lt a b.

(** ** The vocabulary of the specification: titles *)










(** A [SKILL.md] whose header has a line [name:] with nothing after the
    colon, in a folder [s]. *)
Definition doc_name_not_set : str :=
  text_of [lit "---"; lit "name:"; lit "description: d"; lit "---";
           lit "body"].

Definition tree_name_not_set : node :=
  Dir [(lit "s", Dir [(lit "SKILL.md", File doc_name_not_set)])].

(** * Properties *)

(** ** The built-ins on the inputs of the interpreter's documentation *)

Example splitlines_examples :
  map Py.splitlines
    [ []; lit "a"; lit "a" ++ [LF]; lit "a" ++ [LF; LF]; [LF]; [CR; LF];
      lit "a" ++ [CR] ++ lit "b"; [CR]; lit "a" ++ [CR; LF; LF] ++ lit "b";
      [LF; CR]; lit "a" ++ [11; 12] ++ lit "b" ++ [133] ]
  = [ []; [lit "a"]; [lit "a"]; [lit "a"; []]; [[]]; [[]];
      [lit "a"; lit "b"]; [[]]; [lit "a"; []; lit "b"];
      [[]; []]; [lit "a"; []; lit "b"] ].
Proof. reflexivity. Qed.

Example strip_examples :
  Py.strip ([32; 9; 160; 8232] ++ lit "a b" ++ [12288; 10; 13]) = lit "a b" /\
  Py.strip [32; 10] = [] /\
  Py.strip ([8203] ++ lit "a") = [8203] ++ lit "a" /\
  Py.strip_chars QUOTE (QUOTE ++ QUOTE ++ lit "x" ++ QUOTE) = lit "x" /\
  Py.strip_chars QUOTE (QUOTE ++ lit " y") = lit " y".
Proof. repeat split. Qed.

Example split1_examples :
  Py.split1 COLON (lit "a:b:c") = [lit "a"; lit "b:c"] /\
  Py.split1 COLON (lit ":") = [[]; []] /\
  Py.split1 COLON (lit "abc") = [lit "abc"] /\
  Py.replace1 HEADING [] (lit "# # a") = lit "# a" /\
  Py.replace1 [] (lit "x") (lit "abc") = lit "xabc".
Proof. repeat split. Qed.

Example stem_examples :
  map stem [lit "my-skill-name.md"; lit ".md"; lit "foo."; lit "a.b.md";
            lit "noext"; lit "..md"; lit "x.md"]
  = [lit "my-skill-name"; lit ".md"; lit "foo."; lit "a.b"; lit "noext";
     lit "."; lit "x"].
Proof. reflexivity. Qed.

Example title_examples :
  map (@Py.title ascii_only)
    [lit "my skill name"; lit "it's"; lit "mySkill"; lit "3d models"; lit "A_b c"]
  = [lit "My Skill Name"; lit "It'S"; lit "Myskill"; lit "3D Models"; lit "A_B C"].
Proof. reflexivity. Qed.

Example sorted_examples :
  map fst (Py.sorted path_ltb
             (map (fun nm => (nm, Dir []))
                [lit "b"; lit "ab"; lit "a.b"; lit "_"; lit "a-b"; lit "B"; lit "a"]))
  = [lit "B"; lit "_"; lit "a"; lit "a-b"; lit "a.b"; lit "ab"; lit "b"].
Proof. reflexivity. Qed.

Example glob_md_examples :
  map fst (glob_md (Dir [(lit "x.md", Dir []); (lit ".md", File []);
                         (lit "B.md", File []); (lit "b.MD", File []);
                         (lit "sub", Dir [(lit "deep.md", File [])]);
                         (lit "md", File [])]))
  = [lit "x.md"; lit ".md"; lit "B.md"] /\
  glob_md (File (lit "file")) = [].
Proof. split; reflexivity. Qed.

Example json_dumps_examples :
  json_dumps index_b = json_b /\ json_dumps [] = lit "[]".
Proof. split; reflexivity. Qed.


(** ** Strings *)

Lemma last_rev_head {A} (l : list A) : last (rev l) = head l.
Proof. destruct l as [|a l]; [done|]. simpl. apply last_snoc. Qed.

Section StripFacts.
Variable f : N -> bool.

Lemma lstrip_by_app_all pre s :
  Forall (fun c => f c = true) pre ->
  Py.lstrip_by f (pre ++ s) = Py.lstrip_by f s.
Proof.
  induction 1 as [|c pre Hc _ IH]; simpl; [done|].
  by rewrite Hc.
Qed.

Lemma lstrip_by_all s :
  Forall (fun c => f c = true) s -> Py.lstrip_by f s = [].
Proof.
  intros H. rewrite <- (app_nil_r s). by rewrite lstrip_by_app_all.
Qed.

Lemma lstrip_by_head s c r :
  s = c :: r -> f c = false -> Py.lstrip_by f s = s.
Proof. intros -> Hc. simpl. by rewrite Hc. Qed.

Lemma lstrip_by_split s :
  exists pre, s = pre ++ Py.lstrip_by f s /\
    Forall (fun c => f c = true) pre /\
    forall c, head (Py.lstrip_by f s) = Some c -> f c = false.
Proof.
  induction s as [|c s (pre & Hs & Hpre & Hhd)]; simpl.
  - exists []. repeat split; [constructor | done].
  - destruct (f c) eqn:Hc.
    + exists (c :: pre). simpl. split; [congruence|].
      split; [by constructor | done].
    + exists []. repeat split; [constructor|].
      simpl. intros ? [= <-]. done.
Qed.

Lemma rstrip_by_app_all s post :
  Forall (fun c => f c = true) post ->
  Py.rstrip_by f (s ++ post) = Py.rstrip_by f s.
Proof.
  intros H. unfold Py.rstrip_by. rewrite rev_app_distr.
  rewrite lstrip_by_app_all; [done|]. by apply Forall_rev.
Qed.

Lemma rstrip_by_last s c :
  last s = Some c -> f c = false -> Py.rstrip_by f s = s.
Proof.
  intros Hl Hc. unfold Py.rstrip_by.
  destruct (rev s) as [|c' r] eqn:Hr.
  - apply (f_equal (@rev N)) in Hr. rewrite rev_involutive in Hr. by subst.
  - assert (s = rev r ++ [c']) as Hs.
    { apply (f_equal (@rev N)) in Hr. rewrite rev_involutive in Hr. exact Hr. }
    subst s. rewrite last_snoc in Hl. injection Hl as ->.
    simpl. rewrite Hc. done.
Qed.

Lemma strip_by_trimmed s s' : trimmed f s s' -> Py.strip_by f s = s'.
Proof.
  intros (pre & post & -> & Hpre & Hpost & Hhd & Hl).
  unfold Py.strip_by. rewrite app_assoc, rstrip_by_app_all by done.
  destruct (last s') as [c|] eqn:Hlast.
  - rewrite (rstrip_by_last _ c).
    + rewrite lstrip_by_app_all by done.
      destruct s' as [|c' r]; [done|].
      apply (lstrip_by_head _ c' r); [done|]. by apply Hhd.
    + rewrite last_app, Hlast. done.
    + by apply Hl.
  - apply last_None in Hlast as ->. rewrite app_nil_r.
    unfold Py.rstrip_by. rewrite (lstrip_by_all (rev pre)) by (by apply Forall_rev).
    done.
Qed.

Lemma trimmed_strip_by s : trimmed f s (Py.strip_by f s).
Proof.
  unfold Py.strip_by.
  destruct (lstrip_by_split (rev s)) as (post & Hs & Hpost & Hlast).
  destruct (lstrip_by_split (Py.rstrip_by f s)) as (pre & Hr & Hpre & Hhd).
  exists pre, (rev post). split; [|split; [done|split; [by apply Forall_rev|]]].
  - rewrite app_assoc, <- Hr. unfold Py.rstrip_by.
    rewrite <- rev_app_distr, <- Hs. by rewrite rev_involutive.
  - split; [done|]. intros c Hc.
    set (t := Py.lstrip_by f (Py.rstrip_by f s)) in *.
    assert (last (Py.rstrip_by f s) = Some c) as Hc'.
    { rewrite Hr, last_app, Hc. done. }
    apply Hlast. unfold Py.rstrip_by in Hc'.
    by rewrite last_rev_head in Hc'.
Qed.
End StripFacts.

(** ** Searching for one code point *)

Lemma startswith_char c s :
  Py.startswith [c] s = match s with x :: _ => c =? x | [] => false end.
Proof. destruct s; simpl; [done|]. apply andb_true_r. Qed.

Lemma find_char_app c key value :
  c ∉ key -> Py.find [c] (key ++ c :: value) = Some (length key).
Proof.
  induction key as [|x key IH]; intros Hc; simpl Py.find.
  - rewrite N.eqb_refl. done.
  - apply not_elem_of_cons in Hc as [Hx Hc].
    destruct (N.eqb_spec c x); [done|]. simpl.
    fold (Py.find [c] (key ++ c :: value)). rewrite IH by done. done.
Qed.

Lemma find_char_None c s : Py.find [c] s = None -> c ∉ s.
Proof.
  induction s as [|x s IH]; intros H.
  - apply not_elem_of_nil.
  - unfold Py.find in H; fold (Py.find [c] s) in H.
    rewrite startswith_char in H.
    destruct (N.eqb_spec c x); [done|].
    destruct (Py.find [c] s); [done|].
    apply not_elem_of_cons. auto.
Qed.

Lemma find_char_Some c s i :
  Py.find [c] s = Some i ->
  exists key value, s = key ++ c :: value /\ (c ∉ key) /\ i = length key.
Proof.
  revert i. induction s as [|x s IH]; intros i H.
  - done.
  - unfold Py.find in H; fold (Py.find [c] s) in H.
    rewrite startswith_char in H.
    destruct (N.eqb_spec c x) as [->|Hne].
    + injection H as <-. exists [], s. split; [done|].
      split; [apply not_elem_of_nil | done].
    + destruct (Py.find [c] s) as [i'|]; [|done].
      injection H as <-.
      destruct (IH i' eq_refl) as (key & value & -> & Hc & ->).
      exists (x :: key), value. split; [done|].
      split; [|done]. apply not_elem_of_cons. auto.
Qed.

(** ** The header loop *)

Lemma read_header_fold ls m : read_header ls m = Ok (foldl add_entry m ls).
Proof.
  revert m. induction ls as [|line ls IH]; intros m; simpl; [done|].
  unfold add_entry at 2, header_entry, Py.contains, Py.split1.
  destruct (Py.find COLON line) as [i|]; simpl; apply IH.
Qed.

Lemma header_entry_line line k v :
  header_entry line = Some (k, v) <-> header_line line k v.
Proof.
  unfold header_entry. change (Py.find COLON line) with (Py.find [58] line).
  split.
  - destruct (Py.find [58] line) as [i|] eqn:Hf; [|done].
    intros [= <- <-].
    apply find_char_Some in Hf as (key & value & -> & Hc & ->).
    rewrite take_app_length.
    replace (length key + 1)%nat with (length (key ++ [58])) by
      (rewrite length_app; done).
    change (key ++ 58 :: value) with (key ++ [58] ++ value).
    rewrite (app_assoc key [58] value), drop_app_length.
    rewrite <- (app_assoc key [58] value).
    apply (header_line_intro key value _ (Py.strip value)); [done|..];
      apply trimmed_strip_by.
  - intros [key value k' v' v0 Hc Hk Hv' Hv].
    change (key ++ [58] ++ value) with (key ++ 58 :: value).
    rewrite find_char_app by done.
    rewrite take_app_length.
    replace (length key + 1)%nat with (length (key ++ [58])) by
      (rewrite length_app; done).
    change (key ++ 58 :: value) with (key ++ [58] ++ value).
    rewrite (app_assoc key [58] value), drop_app_length.
    unfold Py.strip, Py.strip_chars.
    rewrite (strip_by_trimmed _ _ _ Hk), (strip_by_trimmed _ _ _ Hv').
    fold is_quote. change (fun c => bool_decide (c ∈ QUOTE)) with is_quote.
    rewrite (strip_by_trimmed _ _ _ Hv). done.
Qed.

Lemma header_entry_no_colon line : 58 ∉ line -> header_entry line = None.
Proof.
  intros Hc. destruct (header_entry line) as [[k v]|] eqn:He; [|done].
  apply header_entry_line in He. destruct He as [key value ? ? ? _ _ _ _].
  exfalso. apply Hc. rewrite !elem_of_app, list_elem_of_singleton. auto.
Qed.

Lemma sets_snoc_other ls x k v :
  (forall w, header_entry x <> Some (k, w)) ->
  sets (ls ++ [x]) k v <-> sets ls k v.
Proof.
  intros Hx. split; intros (i & line & Hi & He & Hlast).
  - assert (i < length ls)%nat as Hlt.
    { destruct (decide (i = length ls)) as [->|Hne].
      - rewrite list_lookup_middle in Hi by done. injection Hi as <-.
        by destruct (Hx v).
      - apply lookup_lt_Some in Hi. rewrite length_app in Hi. simpl in Hi. lia. }
    exists i, line. rewrite lookup_app_l in Hi by done.
    split; [done|]. split; [done|].
    intros j l' w Hj Hl. apply (Hlast j l' w Hj).
    rewrite lookup_app_l; [done|]. by apply lookup_lt_Some in Hl.
  - exists i, line. split; [|split; [done|]].
    + rewrite lookup_app_l; [done|]. by apply lookup_lt_Some in Hi.
    + intros j l' w Hj Hl.
      destruct (decide (j = length ls)) as [->|Hne].
      * rewrite list_lookup_middle in Hl by done. injection Hl as <-. apply Hx.
      * apply (Hlast j l' w Hj). rewrite lookup_app_l in Hl; [done|].
        apply lookup_lt_Some in Hl. rewrite length_app in Hl. simpl in Hl. lia.
Qed.

Lemma untouched_snoc_other ls x k :
  (forall w, header_entry x <> Some (k, w)) ->
  untouched (ls ++ [x]) k <-> untouched ls k.
Proof.
  intros Hx. split; intros H j l' w Hl.
  - apply (H j l' w). rewrite lookup_app_l; [done|].
    by apply lookup_lt_Some in Hl.
  - destruct (decide (j = length ls)) as [->|Hne].
    + rewrite list_lookup_middle in Hl by done. injection Hl as <-. apply Hx.
    + apply (H j l' w). rewrite lookup_app_l in Hl; [done|].
      apply lookup_lt_Some in Hl. rewrite length_app in Hl. simpl in Hl. lia.
Qed.

(** The last line that sets a key wins. *)
Lemma lookup_foldl_add_entry ls m k v :
  foldl add_entry m ls !! k = Some v <->
  sets ls k v \/ (m !! k = Some v /\ untouched ls k).
Proof.
  induction ls as [|x ls IH] using rev_ind.
  - simpl. split.
    + intros H. right. split; [done|]. intros j ? ? Hj. done.
    + intros [(i & line & Hi & _)|[H _]]; done.
  - rewrite foldl_app. simpl. unfold add_entry at 1.
    destruct (header_entry x) as [[k' v']|] eqn:Hx.
    + destruct (decide (k' = k)) as [->|Hne].
      * rewrite lookup_insert_eq. split.
        -- intros [= <-]. left. exists (length ls), x.
           split; [by rewrite list_lookup_middle|]. split; [done|].
           intros j l' w Hj Hl. apply lookup_lt_Some in Hl.
           rewrite length_app in Hl. simpl in Hl. lia.
        -- intros [(i & line & Hi & He & Hlast)|[_ Hnone]].
           ++ destruct (decide (i = length ls)) as [->|Hi'].
              ** rewrite list_lookup_middle in Hi by done.
                 injection Hi as <-. congruence.
              ** exfalso. apply (Hlast (length ls) x v').
                 --- apply lookup_lt_Some in Hi.
                     rewrite length_app in Hi. simpl in Hi. lia.
                 --- by rewrite list_lookup_middle.
                 --- done.
           ++ exfalso. apply (Hnone (length ls) x v'); [|done].
              by rewrite list_lookup_middle.
      * rewrite lookup_insert_ne by done. rewrite IH.
        rewrite sets_snoc_other, untouched_snoc_other; [done|..];
          intros w; rewrite Hx; congruence.
    + rewrite IH.
      rewrite sets_snoc_other, untouched_snoc_other; [done|..];
        intros w; rewrite Hx; congruence.
Qed.

(** ** Lines *)

(** Induction along the cases of [Py.splitlines]. *)
Lemma splitlines_ind (P : str -> list str -> Prop) :
  P [] [] ->
  (forall c, Py.is_linebreak c = true -> P [c] [[]]) ->
  (forall r, P r (Py.splitlines r) -> P (CR :: LF :: r) ([] :: Py.splitlines r)) ->
  (forall c c' r, Py.is_linebreak c = true -> (c =? CR) && (c' =? LF) = false ->
     P (c' :: r) (Py.splitlines (c' :: r)) ->
     P (c :: c' :: r) ([] :: Py.splitlines (c' :: r))) ->
  (forall c r, Py.is_linebreak c = false -> Py.splitlines r = [] -> P r [] ->
     P (c :: r) [[c]]) ->
  (forall c r l ls, Py.is_linebreak c = false -> Py.splitlines r = l :: ls ->
     P r (l :: ls) -> P (c :: r) ((c :: l) :: ls)) ->
  forall s, P s (Py.splitlines s).
Proof.
  intros Hnil Hlast Hcrlf Hbreak Hone Hcons s.
  assert (forall n s, (length s <= n)%nat -> P s (Py.splitlines s)) as H;
    [|by apply (H (length s))].
  clear s. induction n as [|n IH]; intros [|c r] Hlen; simpl in Hlen;
    try done; try lia.
  simpl. destruct (Py.is_linebreak c) eqn:Hc.
  - destruct r as [|c' r']; [by apply Hlast|].
    destruct ((c =? CR) && (c' =? LF)) eqn:Hcr.
    + apply andb_true_iff in Hcr as [->%N.eqb_eq ->%N.eqb_eq].
      apply Hcrlf, IH. simpl in Hlen. lia.
    + apply Hbreak; [done..|]. apply IH. lia.
  - destruct (Py.splitlines r) as [|l ls] eqn:Hr.
    + apply Hone; [done..|]. rewrite <- Hr. apply IH. lia.
    + apply Hcons; [done..|]. rewrite <- Hr. apply IH. lia.
Qed.

Lemma splitlines_nil s : Py.splitlines s = [] -> s = [].
Proof.
  pattern s, (Py.splitlines s). apply splitlines_ind; done.
Qed.

(** A line holds no line break. *)
Lemma splitlines_no_break s :
  Forall (Forall (fun c => Py.is_linebreak c = false)) (Py.splitlines s).
Proof.
  pattern s, (Py.splitlines s). apply splitlines_ind; intros.
  - constructor.
  - repeat constructor.
  - by constructor.
  - by constructor.
  - repeat constructor. done.
  - inversion_clear H1. constructor; [|done]. by constructor.
Qed.

(** The first line starts as the text does. *)
Lemma splitlines_startswith p s :
  Forall (fun c => Py.is_linebreak c = false) p ->
  Py.startswith p s = true ->
  p = [] \/ exists l ls, Py.splitlines s = l :: ls /\ Py.startswith p l = true.
Proof.
  intros Hp. revert s. induction Hp as [|c p Hc _ IH]; intros s Hs; [by left|].
  right. destruct s as [|x s]; [done|]. simpl in Hs.
  apply andb_true_iff in Hs as [->%N.eqb_eq Hs].
  simpl. rewrite Hc.
  destruct (IH s Hs) as [->|(l & ls & -> & Hl)].
  - destruct (Py.splitlines s); eexists _, _; (split; [done|]);
      simpl; by rewrite N.eqb_refl.
  - eexists _, _. split; [done|]. simpl. by rewrite N.eqb_refl.
Qed.

Lemma startswith_length p s :
  Py.startswith p s = true -> (length p <= length s)%nat.
Proof.
  revert s. induction p as [|a p IH]; intros [|b s] H; simpl in *;
    try done; try lia.
  apply andb_true_iff in H as [_ H]. apply IH in H. lia.
Qed.

Lemma join_cons sep p ps :
  ps <> [] -> Py.join sep (p :: ps) = p ++ sep ++ Py.join sep ps.
Proof. destruct ps; done. Qed.

Lemma length_join_cons sep p ps :
  (length p + length (Py.join sep ps) <= length (Py.join sep (p :: ps)))%nat.
Proof.
  destruct ps as [|q ps]; [simpl; lia|].
  rewrite (join_cons sep p (q :: ps)) by done. rewrite !length_app. lia.
Qed.

Lemma length_join_drop sep k ps :
  (length (Py.join sep (drop k ps)) <= length (Py.join sep ps))%nat.
Proof.
  revert k. induction ps as [|p ps IH]; intros [|k]; try (simpl; lia).
  change (drop (S k) (p :: ps)) with (drop k ps).
  pose proof (IH k). pose proof (length_join_cons sep p ps). lia.
Qed.

(** Joining the lines back never makes the text longer. *)
Lemma length_join_splitlines s :
  (length (Py.join [LF] (Py.splitlines s)) <= length s)%nat.
Proof.
  pattern s, (Py.splitlines s). apply splitlines_ind; intros;
    try (simpl; lia).
  - destruct (Py.splitlines r); simpl in *; lia.
  - destruct (Py.splitlines (c' :: r)) eqn:E; [simpl; lia|].
    rewrite join_cons by done. simpl in *. lia.
  - destruct ls as [|l' ls].
    + simpl in *. lia.
    + rewrite (join_cons _ l) in H1 by done.
      rewrite (join_cons _ (c :: l)) by done. simpl in *.
      rewrite !length_app in *. simpl in *. lia.
Qed.

Lemma elem_of_join sep ps c :
  c ∈ Py.join sep ps -> c ∈ sep \/ exists p, p ∈ ps /\ c ∈ p.
Proof.
  induction ps as [|p ps IH]; [by intros ?%elem_of_nil|].
  destruct ps as [|q ps].
  - simpl. intros H. right. exists p. split; [apply list_elem_of_here|done].
  - rewrite join_cons by done. rewrite !elem_of_app.
    intros [H|[H|H]]; [right|by left|].
    + exists p. split; [apply list_elem_of_here|done].
    + destruct (IH H) as [?|(p' & Hp' & Hc)]; [by left|right].
      exists p'. split; [by apply list_elem_of_further|done].
Qed.

(** ** The search for the closing delimiter *)

Lemma find_end_seq lines a n :
  (n = 0 \/ a + n <= length lines)%nat ->
  (exists e, find_end lines (seq a n) = Ok (Some e) /\
     (a <= e < a + n)%nat /\
     (exists l, lines !! e = Some l /\ Py.strip l = DELIM) /\
     forall j l, (a <= j < e)%nat -> lines !! j = Some l -> Py.strip l <> DELIM)
  \/ (find_end lines (seq a n) = Ok None /\
     forall j l, (a <= j < a + n)%nat -> lines !! j = Some l ->
       Py.strip l <> DELIM).
Proof.
  revert a. induction n as [|n IH]; intros a Hn.
  - right. split; [done|]. intros; lia.
  - destruct Hn as [|Hn]; [done|]. simpl. unfold Py.getitem.
    destruct (lines !! a) as [l|] eqn:Hl.
    2:{ apply lookup_ge_None in Hl. lia. }
    simpl. case_bool_decide as Hd.
    + left. exists a. split; [done|]. split; [lia|].
      split; [by exists l|]. intros; lia.
    + destruct (IH (S a)) as [(e & -> & He & Hat & Hbefore)|[-> Hnone]];
        [lia| |].
      * left. exists e. split; [done|]. split; [lia|]. split; [done|].
        intros j l' Hj Hl'. destruct (decide (j = a)) as [->|Hne].
        -- congruence.
        -- apply (Hbefore j); [lia|done].
      * right. split; [done|]. intros j l' Hj Hl'.
        destruct (decide (j = a)) as [->|Hne].
        -- congruence.
        -- apply (Hnone j); [lia|done].
Qed.

Lemma find_end_range lines :
  (exists e, find_end lines (Py.range 1 (length lines)) = Ok (Some e) /\
     closing_at lines e)
  \/ (find_end lines (Py.range 1 (length lines)) = Ok None /\ no_closing lines).
Proof.
  unfold Py.range.
  destruct (find_end_seq lines 1 (length lines - 1))
    as [(e & -> & He & Hat & Hbefore)|[-> Hnone]]; [lia| |].
  - left. exists e. split; [done|]. split; [lia|]. done.
  - right. split; [done|]. intros j l Hj Hl. apply (Hnone j); [|done].
    apply lookup_lt_Some in Hl. lia.
Qed.

Lemma closing_at_unique lines e e' :
  closing_at lines e -> closing_at lines e' -> e = e'.
Proof.
  intros (He & (l & Hl & Hd) & Hb) (He' & (l' & Hl' & Hd') & Hb').
  destruct (Nat.lt_total e e') as [Hlt|[->|Hlt]]; [|done|].
  - destruct (Hb' e l); [lia|done..].
  - destruct (Hb e' l'); [lia|done..].
Qed.

Lemma closing_at_no_closing lines e :
  closing_at lines e -> no_closing lines -> False.
Proof. intros (He & (l & Hl & Hd) & _) Hn. by apply (Hn e l). Qed.

(** ** The three ways through [parse_frontmatter] *)

Lemma parse_frontmatter_no_delim text :
  Py.startswith DELIM text = false -> parse_frontmatter text = Ok (∅, text).
Proof. intros H. unfold parse_frontmatter. by rewrite H. Qed.

Lemma parse_frontmatter_no_closing text :
  Py.startswith DELIM text = true -> no_closing (Py.splitlines text) ->
  parse_frontmatter text = Ok (∅, text).
Proof.
  intros H Hn. unfold parse_frontmatter. rewrite H. simpl.
  destruct (find_end_range (Py.splitlines text)) as [(e & _ & He)|[-> _]].
  - destruct (closing_at_no_closing _ _ He Hn).
  - done.
Qed.

Lemma parse_frontmatter_closing text e :
  Py.startswith DELIM text = true -> closing_at (Py.splitlines text) e ->
  parse_frontmatter text =
    Ok (foldl add_entry ∅ (Py.slice (Py.splitlines text) 1 e),
        Py.join [LF] (drop (S e) (Py.splitlines text))).
Proof.
  intros H He. unfold parse_frontmatter. rewrite H. simpl.
  destruct (find_end_range (Py.splitlines text)) as [(e' & -> & He')|[_ Hn]].
  - rewrite (closing_at_unique _ _ _ He He'). simpl.
    rewrite read_header_fold. done.
  - destruct (closing_at_no_closing _ _ He Hn).
Qed.

Lemma parse_frontmatter_returns text :
  exists m body, parse_frontmatter text = Ok (m, body).
Proof.
  destruct (Py.startswith DELIM text) eqn:Hs.
  - destruct (find_end_range (Py.splitlines text)) as [(e & _ & He)|[_ Hn]].
    + eexists _, _. by apply parse_frontmatter_closing.
    + eexists _, _. by apply parse_frontmatter_no_closing.
  - eexists _, _. by apply parse_frontmatter_no_delim.
Qed.

(** With a closing delimiter the body is shorter than the text. *)
Lemma length_body_closing text e :
  Py.startswith DELIM text = true ->
  (length (Py.join [LF] (drop (S e) (Py.splitlines text))) < length text)%nat.
Proof.
  intros H.
  destruct (splitlines_startswith DELIM text) as [?|(l & ls & Hs & Hl)];
    [by repeat constructor|done|done|].
  pose proof (length_join_splitlines text) as Hlen. rewrite Hs in *.
  change (drop (S e) (l :: ls)) with (drop e ls).
  pose proof (length_join_drop [LF] e ls).
  pose proof (length_join_cons [LF] l ls).
  apply startswith_length in Hl. change (length DELIM) with 3%nat in Hl. lia.
Qed.

Lemma slice_lookup {A} (xs : list A) a b i :
  (i < b - a)%nat -> Py.slice xs a b !! i = xs !! (a + i)%nat.
Proof.
  intros Hi. unfold Py.slice. rewrite lookup_take_lt by done.
  apply lookup_drop.
Qed.

Lemma slice_lookup_Some {A} (xs : list A) a b i x :
  Py.slice xs a b !! i = Some x -> (i < b - a)%nat /\ xs !! (a + i)%nat = Some x.
Proof.
  unfold Py.slice. intros H.
  apply lookup_take_Some in H as [H Hi]. by rewrite lookup_drop in H.
Qed.

(** ** parse_frontmatter: main results *)

(** C9. [parse_frontmatter] raises nothing: on every list of lines the
    search for the closing delimiter indexes [lines[i]] in range, on every
    header the unpacking [key, value = ...] gets its two parts, and so,
    whatever the text, a pair of a mapping and a body is returned. *)
Theorem parse_frontmatter_total :
  (forall lines, exists end_index,
     find_end lines (Py.range 1 (length lines)) = Ok end_index) /\
  (forall frontmatter_lines frontmatter, exists frontmatter',
     read_header frontmatter_lines frontmatter = Ok frontmatter') /\
  (forall text, exists m body, parse_frontmatter text = Ok (m, body)).
Proof.
  split; [|split].
  - intros lines.
    destruct (find_end_range lines) as [(e & -> & _)|[-> _]]; by eexists.
  - intros ls m. eexists. apply read_header_fold.
  - intros text. destruct (Py.startswith DELIM text) eqn:Hs.
    + destruct (find_end_range (Py.splitlines text)) as [(e & _ & He)|[_ Hn]].
      * eexists _, _. by apply parse_frontmatter_closing.
      * eexists _, _. by apply parse_frontmatter_no_closing.
    + eexists _, _. by apply parse_frontmatter_no_delim.
Qed.

(** C2, as the code has it.  [parse_frontmatter] returns the empty mapping
    with the text unchanged in exactly two cases: the text does not start
    with the three characters [---], or it does and no later line is [---]
    once trimmed. *)
Theorem parse_frontmatter_no_header text :
  parse_frontmatter text = Ok (∅, text) <->
  Py.startswith DELIM text = false \/
  (Py.startswith DELIM text = true /\ no_closing (Py.splitlines text)).
Proof.
  split.
  - intros H. destruct (Py.startswith DELIM text) eqn:Hs; [right|by left].
    split; [done|].
    destruct (find_end_range (Py.splitlines text)) as [(e & _ & He)|[_ Hn]];
      [|done].
    rewrite (parse_frontmatter_closing text e) in H by done.
    injection H as _ H. pose proof (length_body_closing text e Hs) as Hlt.
    rewrite H in Hlt. lia.
  - intros [H|[H Hn]].
    + by apply parse_frontmatter_no_delim.
    + by apply parse_frontmatter_no_closing.
Qed.

Lemma parse_frontmatter_no_header_witness :
  parse_frontmatter (lit "---") = Ok (∅, lit "---").
Proof.
  apply (proj2 (parse_frontmatter_no_header (lit "---"))).
  right. split; [reflexivity|].
  intros j l Hj Hl. destruct j; [lia|]. discriminate Hl.
Defined.

(** C2, as stated, fails: the first line of [doc_long_dashes] is [---x],
    not the delimiter line, and yet the header is read. *)
Lemma parse_frontmatter_long_dashes :
  head (Py.splitlines doc_long_dashes) = Some (lit "---x") /\
  lit "---x" <> DELIM /\
  parse_frontmatter doc_long_dashes = Ok ({[lit "a" := lit "b"]}, lit "rest") /\
  parse_frontmatter doc_long_dashes <> Ok (∅, doc_long_dashes).
Proof.
  split; [reflexivity|]. split; [discriminate|]. split; [reflexivity|].
  intros H. vm_compute in H. discriminate H.
Qed.

(** C3. With an opening delimiter and a closing one, the body is made of the
    lines after the closing delimiter, joined by line feeds: the first line,
    the header lines and the closing line are not in it.  The document with
    the header line [name: "Foo"] and the body [Body text] gives the mapping
    [{name: Foo}] and the body [Body text]. *)
Theorem parse_frontmatter_body :
  (forall text first header closing rest,
     Py.startswith DELIM text = true ->
     Py.splitlines text = first :: header ++ closing :: rest ->
     Forall (fun l => Py.strip l <> DELIM) header ->
     Py.strip closing = DELIM ->
     exists m, parse_frontmatter text = Ok (m, Py.join [LF] rest)) /\
  parse_frontmatter doc_foo = Ok ({[lit "name" := lit "Foo"]}, lit "Body text").
Proof.
  split; [|reflexivity].
  intros text first header closing rest Hs Hlines Hheader Hclosing.
  assert (closing_at (Py.splitlines text) (S (length header))) as He.
  { rewrite Hlines. split; [lia|]. split.
    - exists closing. split; [|done]. simpl. by rewrite list_lookup_middle.
    - intros j l [Hj1 Hj2] Hl. destruct j as [|j]; [lia|]. simpl in Hl.
      rewrite lookup_app_l in Hl by lia.
      rewrite Forall_forall in Hheader. apply Hheader.
      by apply list_elem_of_lookup_2 in Hl. }
  eexists. rewrite (parse_frontmatter_closing text _ Hs He).
  rewrite Hlines. simpl. rewrite (cons_middle closing), app_assoc.
  rewrite drop_app_length'; [done|]. rewrite length_app. simpl. lia.
Qed.

Lemma parse_frontmatter_body_witness :
  exists m, parse_frontmatter doc_foo = Ok (m, Py.join [LF] [lit "Body text"]).
Proof.
  apply (proj1 parse_frontmatter_body doc_foo (lit "---")
           [lit "name: " ++ QUOTE ++ lit "Foo" ++ QUOTE] (lit "---")
           [lit "Body text"]).
  - reflexivity.
  - reflexivity.
  - repeat constructor. discriminate.
  - reflexivity.
Defined.

Lemma sets_slice_header_gives lines e k v :
  sets (Py.slice lines 1 e) k v <-> header_gives lines e k v.
Proof.
  split.
  - intros (i & line & Hi & He & Hlast).
    apply slice_lookup_Some in Hi as [Hi Hl].
    exists (S i), line. split; [lia|]. split; [done|].
    split; [by apply header_entry_line|].
    intros j l' w Hj Hl' Hh. destruct j as [|j]; [lia|].
    apply (Hlast j l' w); [lia| |by apply header_entry_line].
    rewrite slice_lookup by lia. done.
  - intros (i & line & Hi & Hl & Hh & Hlast).
    destruct i as [|i]; [lia|].
    exists i, line. split; [by rewrite slice_lookup by lia|].
    split; [by apply header_entry_line|].
    intros j l' w Hj Hl' He.
    apply slice_lookup_Some in Hl' as [Hj' Hl'].
    apply (Hlast (S j) l' w); [lia|done|by apply header_entry_line].
Qed.

(** C1, as the code has it.  With an opening and a closing delimiter, a key
    [k] has the value [v] in the mapping exactly when the last header line
    with key [k] has value [v], where a line has a key and a value when it
    holds a colon: the key is what stands before the first colon, trimmed
    of white space, and the value is what stands after it, trimmed of white
    space and then of every leading and every trailing double quote.  A
    line without a colon has no key and no value. *)
Theorem parse_frontmatter_mapping text e m body :
  Py.startswith DELIM text = true ->
  closing_at (Py.splitlines text) e ->
  parse_frontmatter text = Ok (m, body) ->
  (forall k v, m !! k = Some v <-> header_gives (Py.splitlines text) e k v) /\
  (forall line k v, 58 ∉ line -> ~ header_line line k v).
Proof.
  intros Hs He Hp. rewrite (parse_frontmatter_closing text e Hs He) in Hp.
  injection Hp as <- _. split.
  - intros k v. rewrite lookup_foldl_add_entry, sets_slice_header_gives.
    rewrite lookup_empty. split; [|by left].
    intros [?|[? _]]; done.
  - intros line k v Hc Hh. apply header_entry_line in Hh.
    by rewrite header_entry_no_colon in Hh.
Qed.

Lemma parse_frontmatter_mapping_witness :
  ({[lit "name" := lit "Foo"]} : gmap str str) !! lit "name" = Some (lit "Foo")
  <-> header_gives (Py.splitlines doc_foo) 2 (lit "name") (lit "Foo").
Proof.
  refine (proj1 (parse_frontmatter_mapping doc_foo 2
                   {[lit "name" := lit "Foo"]} (lit "Body text")
                   eq_refl _ eq_refl) (lit "name") (lit "Foo")).
  split; [lia|]. split.
  - eexists. split; reflexivity.
  - intros j l Hj Hl. assert (j = 1%nat) as -> by lia.
    injection Hl as <-. discriminate.
Defined.

(** C1, as stated, fails: two layers of quotes both go, and so does a quote
    that stands on one end only. *)
Lemma parse_frontmatter_quotes :
  parse_frontmatter doc_quotes =
    Ok ({[lit "a" := lit "x"; lit "b" := lit "y"]}, lit "rest") /\
  unquote_once (Py.strip (lit " " ++ value_two_layers))
    = QUOTE ++ lit "x" ++ QUOTE /\
  unquote_once (Py.strip (lit " " ++ value_open_quote)) = value_open_quote /\
  lit "x" <> QUOTE ++ lit "x" ++ QUOTE /\
  lit "y" <> value_open_quote.
Proof. repeat split; try reflexivity; discriminate. Qed.

Lemma startswith_app p s t :
  Py.startswith p s = true -> Py.startswith p (s ++ t) = true.
Proof.
  revert s. induction p as [|a p IH]; intros [|b s] H; simpl in *; try done.
  apply andb_true_iff in H as [-> H]. simpl. by apply IH.
Qed.

Lemma splitlines_cons c r :
  Py.is_linebreak c = false ->
  Py.splitlines (c :: r) =
    match Py.splitlines r with [] => [[c]] | l :: ls => (c :: l) :: ls end.
Proof. intros H. simpl. by rewrite H. Qed.

(** One line feed after a character that breaks no line adds no line. *)
Lemma splitlines_app_LF s c :
  last s = Some c -> Py.is_linebreak c = false ->
  Py.splitlines (s ++ [LF]) = Py.splitlines s.
Proof.
  revert c. pattern s, (Py.splitlines s). apply splitlines_ind; clear s.
  - done.
  - intros c Hc c' [= <-] Hc'. congruence.
  - intros r IH c Hl Hc. destruct r as [|x r]; [simpl in Hl; by simplify_eq|].
    change (last (CR :: LF :: x :: r)) with (last (x :: r)) in Hl.
    change ((CR :: LF :: x :: r) ++ [LF]) with (CR :: LF :: ((x :: r) ++ [LF])).
    change (Py.splitlines (CR :: LF :: ((x :: r) ++ [LF])))
      with ([] :: Py.splitlines ((x :: r) ++ [LF])).
    by rewrite (IH c).
  - intros c c' r Hc Hcr IH c0 Hl Hc0.
    change (last (c :: c' :: r)) with (last (c' :: r)) in Hl.
    rewrite <- (IH c0 Hl Hc0). simpl. rewrite Hc, Hcr. done.
  - intros c r Hc Hr _ c0 Hl Hc0. apply splitlines_nil in Hr as ->.
    simpl. rewrite Hc. done.
  - intros c r l ls Hc Hr IH c0 Hl Hc0.
    destruct r as [|x r]; [done|].
    change (last (c :: x :: r)) with (last (x :: r)) in Hl.
    change ((c :: x :: r) ++ [LF]) with (c :: ((x :: r) ++ [LF])).
    rewrite splitlines_cons by done. rewrite (IH c0 Hl Hc0). done.
Qed.

(** C10. With an opening and a closing delimiter the body is put together
    again from the lines: the document that ends in a line feed after
    [Body] has the body [Body]; whatever ended a line in the text, only
    line feeds separate the lines of the body; and one line feed more at
    the end of the text changes nothing. *)
Theorem parse_frontmatter_line_endings :
  parse_frontmatter doc_trailing_newline
    = Ok ({[lit "k" := lit "v"]}, lit "Body") /\
  parse_frontmatter doc_crlf
    = Ok ({[lit "k" := lit "v"]}, text_of [lit "A"; lit "B"]) /\
  (forall text e m body,
     Py.startswith DELIM text = true ->
     closing_at (Py.splitlines text) e ->
     parse_frontmatter text = Ok (m, body) ->
     forall c, c ∈ body -> Py.is_linebreak c = true -> c = LF) /\
  (forall text e c,
     Py.startswith DELIM text = true ->
     closing_at (Py.splitlines text) e ->
     last text = Some c -> Py.is_linebreak c = false ->
     parse_frontmatter (text ++ [LF]) = parse_frontmatter text).
Proof.
  split; [reflexivity|]. split; [reflexivity|]. split.
  - intros text e m body Hs He Hp c Hc Hbreak.
    rewrite (parse_frontmatter_closing text e Hs He) in Hp.
    injection Hp as _ <-.
    apply elem_of_join in Hc as [Hc|(p & Hp & Hc)].
    + by apply list_elem_of_singleton in Hc.
    + exfalso. apply list_elem_of_lookup_1 in Hp as [i Hp].
      rewrite lookup_drop in Hp. apply list_elem_of_lookup_2 in Hp.
      pose proof (splitlines_no_break text) as Hall.
      rewrite Forall_forall in Hall. specialize (Hall p Hp).
      rewrite Forall_forall in Hall. specialize (Hall c Hc). congruence.
  - intros text e c Hs He Hl Hc.
    rewrite (parse_frontmatter_closing text e Hs He).
    rewrite (parse_frontmatter_closing (text ++ [LF]) e).
    + by rewrite (splitlines_app_LF text c).
    + by apply startswith_app.
    + by rewrite (splitlines_app_LF text c).
Qed.

Lemma parse_frontmatter_line_endings_witness :
  parse_frontmatter (doc_foo ++ [LF]) = parse_frontmatter doc_foo.
Proof.
  refine (proj2 (proj2 (proj2 parse_frontmatter_line_endings))
            doc_foo 2%nat 116 eq_refl _ eq_refl eq_refl).
  split; [lia|]. split.
  - eexists. split; reflexivity.
  - intros j l Hj Hl. assert (j = 1%nat) as -> by lia.
    injection Hl as <-. discriminate.
Defined.

(** ** infer_title_from_markdown *)

Section TitleFacts.
Context {U : Py.UnicodeData}.

Lemma replace1_prefix old new rest :
  Py.replace1 old new (old ++ rest) = new ++ rest.
Proof.
  unfold Py.replace1.
  assert (Py.startswith old (old ++ rest) = true) as Hs.
  { induction old as [|a old IH]; simpl; [done|]. by rewrite N.eqb_refl. }
  assert (Py.find old (old ++ rest) = Some 0%nat) as ->.
  { destruct (old ++ rest); simpl in *; by rewrite Hs. }
  simpl. by rewrite drop_app_length.
Qed.

Lemma startswith_prefix p s :
  Py.startswith p s = true -> exists rest, s = p ++ rest.
Proof.
  revert s. induction p as [|a p IH]; intros s H; [by exists s|].
  destruct s as [|b s]; [done|]. simpl in H.
  apply andb_true_iff in H as [->%N.eqb_eq H].
  destruct (IH s H) as [rest ->]. by exists rest.
Qed.


Lemma scan_heading_none lines :
  Forall (fun l => Py.startswith HEADING (Py.strip l) = false) lines ->
  scan_heading lines = None.
Proof.
  induction 1 as [|l lines Hf _ IH]; cbn [scan_heading]; [done|].
  by rewrite Hf.
Qed.

End TitleFacts.

(** ** The order on names and [sorted] *)

Lemma str_ltb_irrefl a : Py.str_ltb a a = false.
Proof.
  induction a as [|x a IH]; [done|]. simpl.
  by rewrite N.ltb_irrefl, N.eqb_refl, IH.
Qed.

Lemma str_ltb_cons x a y b :
  Py.str_ltb (x :: a) (y :: b) = true <->
  x < y \/ (x = y /\ Py.str_ltb a b = true).
Proof.
  simpl. rewrite orb_true_iff, andb_true_iff, N.ltb_lt, N.eqb_eq. done.
Qed.

Lemma str_ltb_trans a b c :
  Py.str_ltb a b = true -> Py.str_ltb b c = true -> Py.str_ltb a c = true.
Proof.
  revert b c. induction a as [|x a IH]; intros [|y b] [|z c]; try done.
  rewrite !str_ltb_cons. intros [?|[-> Hab]] [?|[-> Hbc]].
  - left. lia.
  - by left.
  - by left.
  - right. split; [done|]. by apply (IH b).
Qed.

Lemma str_ltb_total a b :
  Py.str_ltb a b = true \/ a = b \/ Py.str_ltb b a = true.
Proof.
  revert b. induction a as [|x a IH]; intros [|y b]; auto.
  rewrite !str_ltb_cons.
  destruct (N.lt_total x y) as [?|[->|?]]; [by auto| |by auto].
  destruct (IH b) as [?|[->|?]]; auto.
Qed.

Lemma str_ltb_asym a b : Py.str_ltb a b = true -> Py.str_ltb b a = false.
Proof.
  intros H. destruct (Py.str_ltb b a) eqn:H'; [|done].
  pose proof (str_ltb_trans _ _ _ H H') as Ht. by rewrite str_ltb_irrefl in Ht.
Qed.

Lemma str_le_trans a b c : str_le a b -> str_le b c -> str_le a c.
Proof.
  unfold str_le. intros Hab Hbc.
  destruct (Py.str_ltb c a) eqn:Hca; [|done].
  destruct (str_ltb_total a b) as [H|[->|H]]; [|congruence..].
  pose proof (str_ltb_trans _ _ _ Hca H). congruence.
Qed.

Lemma str_ltb_app p a b : Py.str_ltb (p ++ a) (p ++ b) = Py.str_ltb a b.
Proof.
  induction p as [|x p IH]; [done|]. simpl.
  by rewrite N.ltb_irrefl, N.eqb_refl, IH.
Qed.

Lemma name_lt_asym a b : name_lt a b -> name_lt b a -> a = b.
Proof.
  intros H H'. apply str_ltb_asym in H. unfold name_lt, path_ltb in H'.
  congruence.
Qed.

Lemma insert_sorted_Permutation (x : str * node) l :
  Permutation (Py.insert_sorted path_ltb x l) (x :: l).
Proof.
  induction l as [|y l IH]; simpl; [done|].
  destruct (path_ltb y x); [|done].
  rewrite IH. apply perm_swap.
Qed.

Lemma sorted_Permutation (l : list (str * node)) :
  Permutation (Py.sorted path_ltb l) l.
Proof.
  induction l as [|x l IH]; simpl; [done|].
  fold (Py.sorted path_ltb l). rewrite insert_sorted_Permutation.
  by constructor.
Qed.

Lemma insert_sorted_StronglySorted x l :
  StronglySorted name_le l ->
  StronglySorted name_le (Py.insert_sorted path_ltb x l).
Proof.
  induction 1 as [|y l Hl IH Hy]; simpl; [by repeat constructor|].
  destruct (path_ltb y x) eqn:Hyx.
  - constructor; [done|].
    rewrite insert_sorted_Permutation. constructor; [|done].
    by apply str_ltb_asym.
  - constructor; [by constructor|]. constructor; [done|].
    eapply Forall_impl; [exact Hy|]. intros z Hz.
    by apply (str_le_trans _ y.1).
Qed.

(** [sorted] sorts. *)
Lemma sorted_StronglySorted l :
  StronglySorted name_le (Py.sorted path_ltb l).
Proof.
  induction l as [|x l IH]; simpl; [constructor|].
  by apply insert_sorted_StronglySorted.
Qed.

Lemma StronglySorted_name_lt l :
  NoDup (map fst l) -> StronglySorted name_le l -> StronglySorted name_lt l.
Proof.
  intros Hnd. induction 1 as [|x l Hl IH Hx]; [constructor|].
  simpl in Hnd. apply NoDup_cons in Hnd as [Hnx Hnd].
  constructor; [by apply IH|].
  rewrite Forall_forall in Hx |- *. intros y Hy.
  destruct (str_ltb_total x.1 y.1) as [H|[H|H]]; [done| |].
  - destruct Hnx. rewrite H. apply list_elem_of_fmap. by exists y.
  - specialize (Hx y Hy). unfold name_le, str_le in Hx. congruence.
Qed.

(** With every name listed once, the listing order does not show after
    [sorted]. *)
Lemma sorted_Permutation_eq l l' :
  NoDup (map fst l) -> Permutation l l' ->
  Py.sorted path_ltb l = Py.sorted path_ltb l'.
Proof.
  intros Hnd Hp. apply (StronglySorted_unique_strong name_lt).
  - intros a b _ _. apply name_lt_asym.
  - apply StronglySorted_name_lt; [|apply sorted_StronglySorted].
    by rewrite sorted_Permutation.
  - apply StronglySorted_name_lt; [|apply sorted_StronglySorted].
    by rewrite sorted_Permutation, <- Hp.
  - by rewrite !sorted_Permutation.
Qed.

Lemma insert_sorted_Forall2 (R : relation (str * node)) x x' l l' :
  (forall a b, R a b -> a.1 = b.1) ->
  R x x' -> Forall2 R l l' ->
  Forall2 R (Py.insert_sorted path_ltb x l) (Py.insert_sorted path_ltb x' l').
Proof.
  intros HR Hx. induction 1 as [|y y' l l' Hy Hl IH]; simpl.
  - by repeat constructor.
  - unfold path_ltb. rewrite (HR _ _ Hx), (HR _ _ Hy).
    destruct (Py.str_ltb y'.1 x'.1); by repeat constructor.
Qed.

Lemma sorted_Forall2 (R : relation (str * node)) l l' :
  (forall a b, R a b -> a.1 = b.1) ->
  Forall2 R l l' ->
  Forall2 R (Py.sorted path_ltb l) (Py.sorted path_ltb l').
Proof.
  intros HR. induction 1 as [|x x' l l' Hx Hl IH]; simpl; [constructor|].
  by apply insert_sorted_Forall2.
Qed.

(** ** The loops of [build_index] *)

Section IndexFacts.
Context {U : Py.UnicodeData}.

Lemma collect_references_files refs acc r :
  collect_references refs acc = Ok r ->
  map file r = map file acc ++ map reference_file refs.
Proof.
  revert acc. induction refs as [|ref refs IH]; intros acc; simpl.
  - intros [= <-]. by rewrite app_nil_r.
  - destruct (infer_title_from_markdown ref.1 (Some ref.2)) as [t|]; [|done].
    simpl. intros H. rewrite (IH _ H), map_app. simpl.
    by rewrite <- app_assoc.
Qed.

Lemma index_skill_dir_qualifies e :
  index_skill_dir e =
    if qualifies e then s ← skill_of e; Ok (Some s) else Ok None.
Proof.
  unfold index_skill_dir, qualifies, skill_of, reference_entries.
  destruct (is_dir e.2); [|done]. simpl.
  case_bool_decide; [done|]. simpl.
  destruct (child e.2 (lit "SKILL.md")) as [md|]; [|done]. simpl.
  destruct md as [text|]; [|done]. simpl.
  destruct (parse_frontmatter text) as [[fm body]|]; [|done]. simpl.
  destruct (child e.2 (lit "references")) as [d|]; simpl; [|done].
  by destruct (collect_references _ _).
Qed.

Lemma index_loop_spec entries skills rs :
  index_loop entries skills = Ok rs ->
  exists new, rs = skills ++ new /\
    Forall2 (fun e s => skill_of e = Ok s) (List.filter qualifies entries) new.
Proof.
  revert skills. induction entries as [|e entries IH]; intros skills; simpl.
  - intros [= <-]. exists []. by rewrite app_nil_r.
  - rewrite index_skill_dir_qualifies. destruct (qualifies e).
    + destruct (skill_of e) as [s|] eqn:Hs; [|done]. simpl.
      intros (new & -> & Hnew)%IH. exists (s :: new).
      rewrite <- app_assoc. split; [done|]. by constructor.
    + simpl. apply IH.
Qed.

Lemma skill_of_spec e s :
  skill_of e = Ok s ->
  folder s = e.1 /\
  map file (references s) = map reference_file (reference_entries e.2) /\
  exists text fm body,
    child e.2 (lit "SKILL.md") = Some (File text) /\
    parse_frontmatter text = Ok (fm, body) /\
    name s = default e.1 (fm !! lit "name") /\
    description s = Py.strip (default [] (fm !! lit "description")).
Proof.
  unfold skill_of.
  destruct (child e.2 (lit "SKILL.md")) as [[text|]|]; [|done..]. simpl.
  destruct (parse_frontmatter text) as [[fm body]|] eqn:Hp; [|done]. simpl.
  destruct (collect_references _ _) as [r|] eqn:Hr; [|done]. simpl.
  intros [= <-]. simpl. split; [done|].
  split; [by apply collect_references_files in Hr|].
  by exists text, fm, body.
Qed.

Lemma build_index_spec entries rs :
  build_index (Dir entries) = Ok rs ->
  Forall2 (fun e s => skill_of e = Ok s)
    (List.filter qualifies (Py.sorted path_ltb entries)) rs.
Proof.
  unfold build_index. simpl. intros (new & -> & H)%index_loop_spec. done.
Qed.
End IndexFacts.

(** ** build_index: its records *)

Lemma StronglySorted_List_filter {A} (R : relation A) (f : A -> bool) l :
  StronglySorted R l -> StronglySorted R (List.filter f l).
Proof.
  induction 1 as [|x l Hl IH Hx]; simpl; [constructor|].
  destruct (f x); [|done]. constructor; [done|].
  rewrite Forall_forall in Hx |- *. intros y Hy%list_elem_of_In.
  apply filter_In in Hy as [Hy _]. by apply Hx, list_elem_of_In.
Qed.

Lemma StronglySorted_names l :
  StronglySorted name_le l -> StronglySorted str_le (map fst l).
Proof.
  induction 1 as [|x l Hl IH Hx]; simpl; constructor; [done|].
  by apply Forall_fmap.
Qed.

Lemma StronglySorted_prefix p names :
  StronglySorted str_le names -> StronglySorted str_le (map (app p) names).
Proof.
  induction 1 as [|x l Hl IH Hx]; simpl; constructor; [done|].
  apply Forall_fmap. eapply Forall_impl; [exact Hx|].
  intros y Hy. unfold str_le in *. simpl. by rewrite str_ltb_app.
Qed.

Section IndexRecords.
Context {U : Py.UnicodeData}.

Lemma build_index_Dir root skills :
  build_index root = Ok skills -> exists entries, root = Dir entries.
Proof. destruct root as [|entries]; [done|]. by exists entries. Qed.

Lemma build_index_folder_list entries skills :
  build_index (Dir entries) = Ok skills ->
  map folder skills
    = map fst (List.filter qualifies (Py.sorted path_ltb entries)).
Proof.
  intros H%build_index_spec.
  induction H as [|e s es ss Hs _ IH]; simpl; [done|].
  apply skill_of_spec in Hs as [-> _]. by rewrite IH.
Qed.

(** C4. The record of a skill directory has the [name] of the front matter
    of its [SKILL.md], whatever a header line sets it to, the empty string
    included, and the name of the directory when no header line sets
    [name]; it has the [description] of the front matter, trimmed, and the
    empty string when the front matter has none. *)
Theorem build_index_name_description root skills s :
  build_index root = Ok skills -> s ∈ skills ->
  exists entries d text fm body,
    root = Dir entries /\ (folder s, d) ∈ entries /\
    child d (lit "SKILL.md") = Some (File text) /\
    parse_frontmatter text = Ok (fm, body) /\
    (forall v, fm !! lit "name" = Some v -> name s = v) /\
    (fm !! lit "name" = None -> name s = folder s) /\
    (forall v, fm !! lit "description" = Some v -> description s = Py.strip v) /\
    (fm !! lit "description" = None -> description s = []).
Proof.
  intros Hb Hs. destruct (build_index_Dir _ _ Hb) as [entries ->].
  apply build_index_spec in Hb.
  apply list_elem_of_lookup_1 in Hs as [i Hs].
  destruct (Forall2_lookup_r _ _ _ _ _ Hb Hs) as ([nm d] & He & Hskill).
  apply list_elem_of_lookup_2, list_elem_of_In, filter_In in He as [He _].
  apply list_elem_of_In in He. rewrite sorted_Permutation in He.
  apply skill_of_spec in Hskill
    as (Hf & _ & text & fm & body & Hmd & Hp & Hn & Hd).
  simpl in *. subst nm. exists entries, d, text, fm, body.
  split; [done|]. split; [done|]. split; [done|]. split; [done|].
  rewrite Hn, Hd. repeat split; by intros; simplify_option_eq.
Qed.

(** The records and their references follow one another as [sorted] left
    their names, in the order of [<] on [str]. *)
Lemma build_index_sorted_ltb root skills :
  build_index root = Ok skills ->
  StronglySorted str_le (map folder skills) /\
  Forall (fun s =>
            StronglySorted str_le (map file (references s)) /\
            exists names,
              StronglySorted str_le names /\
              map file (references s) = map (app (lit "references/")) names)
    skills.
Proof.
  intros Hb. destruct (build_index_Dir _ _ Hb) as [entries ->]. split.
  - rewrite (build_index_folder_list _ _ Hb).
    apply StronglySorted_names, StronglySorted_List_filter,
      sorted_StronglySorted.
  - apply build_index_spec in Hb.
    induction Hb as [|e s es ss Hs _ IH]; constructor; [|done].
    apply skill_of_spec in Hs as (_ & Hfiles & _).
    assert (map reference_file (reference_entries e.2)
            = map (app (lit "references/")) (map fst (reference_entries e.2)))
      as Hnames by (by rewrite map_map).
    assert (StronglySorted str_le (map fst (reference_entries e.2))) as Hsorted
      by apply StronglySorted_names, sorted_StronglySorted.
    rewrite Hfiles, Hnames. split.
    + by apply StronglySorted_prefix.
    + by eexists.
Qed.
End IndexRecords.

Example build_index_alpha :
  @build_index ascii_only tree_alpha = Ok index_alpha.
Proof. reflexivity. Qed.

Lemma build_index_name_description_witness :
  exists entries d text fm body,
    tree_alpha = Dir entries /\ (lit "a", d) ∈ entries /\
    child d (lit "SKILL.md") = Some (File text) /\
    parse_frontmatter text = Ok (fm, body) /\
    (forall v, fm !! lit "name" = Some v -> lit "Alpha" = v) /\
    (fm !! lit "name" = None -> lit "Alpha" = lit "a") /\
    (forall v, fm !! lit "description" = Some v -> lit "desc" = Py.strip v) /\
    (fm !! lit "description" = None -> lit "desc" = []).
Proof.
  refine (@build_index_name_description ascii_only tree_alpha index_alpha
            {| name := lit "Alpha"; folder := lit "a";
               description := lit "desc";
               references :=
                 [ {| title := lit "One More";
                      file := lit "references/one-more.md" |};
                   {| title := lit "Hello World";
                      file := lit "references/two.md" |} ] |}
            eq_refl _).
  apply list_elem_of_further, list_elem_of_here.
Defined.

(** A header line [name:] sets the name to the empty string: the record
    has the empty name and not the name of its folder. *)
Lemma build_index_name_not_set :
  parse_frontmatter doc_name_not_set
  = Ok ({[lit "name" := []; lit "description" := lit "d"]}, lit "body") /\
  @build_index ascii_only tree_name_not_set
  = Ok [{| name := []; folder := lit "s"; description := lit "d";
           references := [] |}] /\
  ([] : str) <> lit "s".
Proof. split; [reflexivity|]. split; [reflexivity|discriminate]. Qed.

(** ** The order of the index is the lexicographic order *)

Lemma str_ltb_lex a b : Py.str_ltb a b = true <-> lex_lt a b.
Proof.
  split.
  - revert b. induction a as [|x a IH]; intros [|y b] H; try done.
    + left. by exists y, b.
    + apply str_ltb_cons in H as [H|[-> H]].
      * right. by exists [], x, y, a, b.
      * destruct (IH b H) as [(c & r & ->)|(p & x & z & a' & b' & -> & -> & Hlt)].
        -- left. by exists c, r.
        -- right. by exists (y :: p), x, z, a', b'.
  - intros [(c & r & ->)|(p & x & y & a' & b' & -> & -> & Hlt)].
    + rewrite <- (app_nil_r a) at 1. by rewrite str_ltb_app.
    + rewrite str_ltb_app. apply str_ltb_cons. by left.
Qed.

Lemma str_le_lex a b : str_le a b <-> lex_le a b.
Proof.
  unfold str_le, lex_le. split.
  - intros H. destruct (str_ltb_total a b) as [Hlt|[->|Hgt]];
      [right; by apply str_ltb_lex|by left|congruence].
  - intros [->|Hlt%str_ltb_lex]; [apply str_ltb_irrefl|by apply str_ltb_asym].
Qed.

Lemma StronglySorted_lex l :
  StronglySorted str_le l -> StronglySorted lex_le l.
Proof.
  induction 1 as [|x l Hl IH Hx]; constructor; [done|].
  eapply Forall_impl; [exact Hx|]. intros y. apply str_le_lex.
Qed.

Section IndexOrder.
Context {U : Py.UnicodeData}.

(** C6. The records come sorted by folder in the lexicographic order of
    code points, and in every record the references come sorted by file:
    their files are [references/] before file names that are sorted in
    this order. *)
Theorem build_index_sorted root skills :
  build_index root = Ok skills ->
  StronglySorted lex_le (map folder skills) /\
  Forall (fun s =>
            StronglySorted lex_le (map file (references s)) /\
            exists names,
              StronglySorted lex_le names /\
              map file (references s) = map (app (lit "references/")) names)
    skills.
Proof.
  intros [Hf Hr]%build_index_sorted_ltb. split; [by apply StronglySorted_lex|].
  eapply Forall_impl; [exact Hr|]. intros s [Hfiles (names & Hnames & Heq)].
  split; [by apply StronglySorted_lex|].
  exists names. split; [by apply StronglySorted_lex|done].
Qed.
End IndexOrder.

Lemma build_index_sorted_witness :
  StronglySorted lex_le (map folder index_alpha) /\
  Forall (fun s =>
            StronglySorted lex_le (map file (references s)) /\
            exists names,
              StronglySorted lex_le names /\
              map file (references s) = map (app (lit "references/")) names)
    index_alpha.
Proof. exact (@build_index_sorted ascii_only tree_alpha index_alpha eq_refl). Defined.

(** The order on an example: capitals, then the underscore, then small
    letters; a name before the names it starts. *)
Example lex_le_examples :
  StronglySorted lex_le
    [lit "B"; lit "_"; lit "a"; lit "a-b"; lit "a.b"; lit "ab"; lit "b"] /\
  ~ lex_le (lit "a") (lit "0") /\ ~ lex_le (lit "ab") (lit "a").
Proof.
  split; [|split].
  - apply StronglySorted_lex.
    repeat (constructor; [|by repeat constructor]). constructor.
  - intros H%str_le_lex. discriminate H.
  - intros H%str_le_lex. discriminate H.
Qed.

(** ** Two listings of one directory *)

Lemma List_filter_Permutation {A} (f : A -> bool) l l' :
  Permutation l l' -> Permutation (List.filter f l) (List.filter f l').
Proof.
  induction 1 as [|x l l' _ IH|x y l|l l' l'' _ IH _ IH']; simpl.
  - done.
  - destruct (f x); by rewrite IH.
  - destruct (f x), (f y); try done. apply perm_swap.
  - by rewrite IH.
Qed.

Lemma same_entry_name a b : same_entry a b -> a.1 = b.1.
Proof. by intros [? _]. Qed.

Lemma filter_name_Forall2 (g : str -> bool) l l' :
  Forall2 same_entry l l' ->
  Forall2 same_entry (List.filter (fun e => g e.1) l)
    (List.filter (fun e => g e.1) l').
Proof.
  induction 1 as [|a b l l' Hab _ IH]; simpl; [constructor|].
  rewrite (same_entry_name _ _ Hab). destruct (g b.1); [by constructor|done].
Qed.

Lemma NoDup_names_filter (f : str * node -> bool) l :
  NoDup (map fst l) -> NoDup (map fst (List.filter f l)).
Proof.
  induction l as [|x l IH]; simpl; [done|].
  intros [Hx Hl]%NoDup_cons. destruct (f x); [|by apply IH].
  simpl. apply NoDup_cons. split; [|by apply IH].
  intros Hin. apply Hx.
  apply list_elem_of_fmap in Hin as (y & -> & Hy).
  apply list_elem_of_fmap. exists y. split; [done|].
  apply list_elem_of_In, filter_In in Hy as [Hy _]. by apply list_elem_of_In.
Qed.

Lemma find_name_Permutation nm (l l' : list (str * node)) :
  NoDup (map fst l) -> Permutation l l' ->
  List.find (fun e => bool_decide (e.1 = nm)) l
  = List.find (fun e => bool_decide (e.1 = nm)) l'.
Proof.
  intros Hnd Hp. induction Hp as [|x l l' Hp IH|x y l|l l' l'' Hp IH _ IH'].
  - done.
  - simpl in *. apply NoDup_cons in Hnd as [_ Hnd]. by rewrite IH.
  - simpl in *. apply NoDup_cons in Hnd as [Hy _].
    case_bool_decide as Hyn; case_bool_decide as Hxn; try done.
    destruct Hy. rewrite Hyn, <- Hxn. apply list_elem_of_here.
  - rewrite IH by done. apply IH'. by rewrite <- Hp.
Qed.

Lemma find_name_Forall2 nm l l' :
  Forall2 same_entry l l' ->
  option_Forall2 same_entry
    (List.find (fun e => bool_decide (e.1 = nm)) l)
    (List.find (fun e => bool_decide (e.1 = nm)) l').
Proof.
  induction 1 as [|a b l l' Hab _ IH]; simpl; [constructor|].
  rewrite (same_entry_name _ _ Hab). case_bool_decide; [by constructor|done].
Qed.

Lemma same_snapshot_Dir_inv entries x' :
  unique_names (Dir entries) -> same_snapshot (Dir entries) x' ->
  exists mid entries',
    x' = Dir entries' /\ Permutation entries mid /\
    Forall2 same_entry mid entries' /\
    NoDup (map fst entries) /\ Forall (fun e => unique_names e.2) mid.
Proof.
  intros Hu Hs. inversion Hu as [|? Hnd Hall]; subst.
  inversion Hs as [|? mid entries' Hp Hf]; subst.
  exists mid, entries'. repeat split; try done. by rewrite <- Hp.
Qed.

Lemma is_dir_same x x' : same_snapshot x x' -> is_dir x = is_dir x'.
Proof. by destruct 1. Qed.

Lemma read_text_same o o' :
  option_Forall2 same_snapshot o o' -> read_text o = read_text o'.
Proof. destruct 1 as [x x' []|]; done. Qed.

Lemma child_same x x' nm :
  unique_names x -> same_snapshot x x' ->
  option_Forall2 (fun y y' => same_snapshot y y' /\ unique_names y)
    (child x nm) (child x' nm).
Proof.
  intros Hu Hs. destruct x as [text|entries].
  - inversion Hs; subst. constructor.
  - destruct (same_snapshot_Dir_inv _ _ Hu Hs)
      as (mid & entries' & -> & Hp & Hf & Hnd & Hall).
    simpl. rewrite (find_name_Permutation nm _ _ Hnd Hp).
    pose proof (find_name_Forall2 nm _ _ Hf) as Hfind.
    destruct (List.find (fun e => bool_decide (e.1 = nm)) mid) as [a|] eqn:Ha;
      inversion Hfind as [? b [_ Hab]|]; subst; simpl; constructor.
    split; [done|]. apply find_some in Ha as [Ha _].
    rewrite Forall_forall in Hall. by apply (Hall a), list_elem_of_In.
Qed.

Lemma glob_md_same x x' :
  unique_names x -> same_snapshot x x' ->
  Forall2 same_entry (Py.sorted path_ltb (glob_md x))
    (Py.sorted path_ltb (glob_md x')).
Proof.
  intros Hu Hs. destruct x as [text|entries].
  - inversion Hs; subst. constructor.
  - destruct (same_snapshot_Dir_inv _ _ Hu Hs)
      as (mid & entries' & -> & Hp & Hf & Hnd & _).
    simpl.
    rewrite (sorted_Permutation_eq _
               (List.filter (fun e => Py.endswith (lit ".md") e.1) mid)).
    + apply sorted_Forall2; [apply same_entry_name|].
      by apply (filter_name_Forall2 (Py.endswith (lit ".md"))).
    + by apply NoDup_names_filter.
    + by apply List_filter_Permutation.
Qed.

Section Determinism.
Context {U : Py.UnicodeData}.

Lemma infer_title_from_markdown_same a b :
  same_entry a b ->
  infer_title_from_markdown a.1 (Some a.2)
  = infer_title_from_markdown b.1 (Some b.2).
Proof.
  intros [Hn Hs]. unfold infer_title_from_markdown.
  rewrite Hn, (read_text_same (Some a.2) (Some b.2)); [done|].
  by constructor.
Qed.

Lemma collect_references_same refs refs' acc :
  Forall2 same_entry refs refs' ->
  collect_references refs acc = collect_references refs' acc.
Proof.
  intros H. revert acc. induction H as [|a b l l' Hab _ IH]; intros acc.
  - done.
  - simpl. rewrite (infer_title_from_markdown_same a b Hab).
    rewrite (same_entry_name _ _ Hab).
    destruct (infer_title_from_markdown b.1 (Some b.2)); simpl; [apply IH|done].
Qed.

Lemma reference_entries_same x x' :
  unique_names x -> same_snapshot x x' ->
  Forall2 same_entry (reference_entries x) (reference_entries x').
Proof.
  intros Hu Hs. unfold reference_entries.
  destruct (child_same x x' (lit "references") Hu Hs) as [d d' [Hd Hud]|];
    simpl; [by apply glob_md_same|constructor].
Qed.

Lemma qualifies_same a b :
  same_entry a b -> unique_names a.2 -> qualifies a = qualifies b.
Proof.
  intros [Hn Hs] Hu. unfold qualifies.
  rewrite Hn, (is_dir_same _ _ Hs).
  by destruct (child_same a.2 b.2 (lit "SKILL.md") Hu Hs).
Qed.

Lemma skill_of_same a b :
  same_entry a b -> unique_names a.2 -> skill_of a = skill_of b.
Proof.
  intros [Hn Hs] Hu. unfold skill_of.
  rewrite (read_text_same (child a.2 (lit "SKILL.md"))
             (child b.2 (lit "SKILL.md"))).
  2:{ destruct (child_same a.2 b.2 (lit "SKILL.md") Hu Hs) as [? ? []|];
        by constructor. }
  rewrite (collect_references_same _ (reference_entries b.2))
    by (by apply reference_entries_same).
  by rewrite Hn.
Qed.

Lemma index_loop_same entries entries' skills :
  Forall2 (fun a b => same_entry a b /\ unique_names a.2) entries entries' ->
  index_loop entries skills = index_loop entries' skills.
Proof.
  intros H. revert skills.
  induction H as [|a b l l' [Hab Hu] _ IH]; intros skills; [done|].
  simpl. rewrite !index_skill_dir_qualifies.
  rewrite (qualifies_same a b Hab Hu), (skill_of_same a b Hab Hu).
  destruct (qualifies b); [|apply IH].
  destruct (skill_of b); simpl; [apply IH|done].
Qed.

(** C8. [build_index] does not depend on the order in which the operating
    system lists the directories: on two snapshots of one tree it gives
    the same records in the same order, with the same references in the
    same order, or raises the same exception; the serialized index is then
    the same text. *)
Theorem build_index_deterministic root root' :
  unique_names root -> same_snapshot root root' ->
  build_index root = build_index root' /\
  forall skills skills',
    build_index root = Ok skills -> build_index root' = Ok skills' ->
    json_dumps skills = json_dumps skills'.
Proof.
  intros Hu Hs.
  assert (build_index root = build_index root') as Heq.
  { destruct root as [text|entries].
    - by inversion Hs.
    - destruct (same_snapshot_Dir_inv _ _ Hu Hs)
        as (mid & entries' & -> & Hp & Hf & Hnd & Hall).
      unfold build_index. simpl.
      rewrite (sorted_Permutation_eq entries mid Hnd Hp).
      apply index_loop_same.
      apply (sorted_Forall2 (fun a b => same_entry a b /\ unique_names a.2)).
      + by intros a b [[? _] _].
      + clear Hp Hs Hu Hnd.
        induction Hf as [|a b l l' Hab _ IH]; [constructor|].
        apply Forall_cons in Hall as [Ha Hall].
        constructor; [done|]. by apply IH. }
  split; [done|]. intros skills skills' H H'. congruence.
Qed.
End Determinism.

Lemma same_snapshot_files entries :
  Forall (fun e => is_file e.2 = true) entries ->
  same_snapshot (Dir entries) (Dir entries).
Proof.
  intros H. apply (same_Dir _ entries); [done|].
  induction H as [|[nm [text|]] l Hx _ IH]; [constructor| |done].
  constructor; [|done]. split; [done|]. constructor.
Qed.

Lemma unique_names_files entries :
  NoDup (map fst entries) ->
  Forall (fun e => is_file e.2 = true) entries ->
  unique_names (Dir entries).
Proof.
  intros Hnd H. constructor; [done|].
  eapply Forall_impl; [exact H|]. intros [nm [text|]] Hx; [constructor|done].
Qed.

Lemma same_snapshot_alpha : same_snapshot tree_alpha tree_alpha'.
Proof.
  assert (forall text, same_snapshot (File text) (File text)) as Hfile
    by constructor.
  apply (same_Dir _ [(lit "0", dir_zero); (lit "a", dir_alpha);
                     (lit "README.md", File (lit "# Skills"));
                     (lit "b", dir_b); (lit "docs", dir_docs)]).
  { apply (Permutation_rev [(lit "docs", dir_docs); (lit "b", dir_b);
                            (lit "README.md", File (lit "# Skills"));
                            (lit "a", dir_alpha); (lit "0", dir_zero)]). }
  repeat (apply List.Forall2_cons; [split; [reflexivity|]|]);
    [| |apply Hfile| | |apply List.Forall2_nil];
    try (apply same_snapshot_files; by repeat constructor).
  apply (same_Dir _ [(lit "SKILL.md", File skill_alpha);
                     (lit "references", refs_alpha)]); [apply perm_swap|].
  repeat (apply List.Forall2_cons; [split; [reflexivity|]|]);
    [apply Hfile| |apply List.Forall2_nil].
  apply (same_Dir _ [(lit "one-more.md", File (lit "x"));
                     (lit "two.md", File doc_hello);
                     (lit "notes.txt", File [])]).
  { symmetry.
    apply (Permutation_cons_append
             [(lit "two.md", File doc_hello); (lit "notes.txt", File [])]). }
  repeat (apply List.Forall2_cons; [split; [reflexivity|apply Hfile]|]).
  apply List.Forall2_nil.
Qed.

Lemma unique_names_alpha : unique_names tree_alpha.
Proof.
  assert (forall l : list str, bool_decide (NoDup l) = true -> NoDup l) as Hnd
    by (intros l; apply bool_decide_eq_true_1).
  constructor; [by apply Hnd|].
  repeat (apply Forall_cons; split); try apply List.Forall_nil;
    try (apply unique_names_files; [by apply Hnd|by repeat constructor]).
  - constructor.
  - constructor; [by apply Hnd|].
    repeat (apply Forall_cons; split); try apply List.Forall_nil; [|constructor].
    apply unique_names_files; [by apply Hnd|by repeat constructor].
Qed.

Lemma build_index_deterministic_witness :
  @build_index ascii_only tree_alpha = @build_index ascii_only tree_alpha' /\
  forall skills skills',
    @build_index ascii_only tree_alpha = Ok skills ->
    @build_index ascii_only tree_alpha' = Ok skills' ->
    json_dumps skills = json_dumps skills'.
Proof.
  exact (@build_index_deterministic ascii_only tree_alpha tree_alpha'
           unique_names_alpha same_snapshot_alpha).
Defined.

(** ** build_index: filtering and sorting *)

Lemma filter_insert_sorted (f : str * node -> bool) x l :
  StronglySorted name_le l ->
  List.filter f (Py.insert_sorted path_ltb x l)
  = if f x then Py.insert_sorted path_ltb x (List.filter f l)
    else List.filter f l.
Proof.
  induction 1 as [|y l Hl IH Hy]; simpl; [by destruct (f x)|].
  destruct (path_ltb y x) eqn:Hyx; simpl.
  - rewrite IH. destruct (f x), (f y); simpl; by rewrite ?Hyx.
  - destruct (f x) eqn:Hfx; [|done]. destruct (f y); simpl; [by rewrite Hyx|].
    destruct (List.filter f l) as [|z zs] eqn:Hz; [done|]. simpl.
    assert (path_ltb z x = false) as ->; [|done].
    assert (z ∈ l) as Hin.
    { apply list_elem_of_In. apply (proj1 (filter_In f z l)).
      rewrite Hz. by left. }
    rewrite Forall_forall in Hy. specialize (Hy z Hin).
    by apply (str_le_trans x.1 y.1 z.1).
Qed.

(** Filtering before or after [sorted] is the same. *)
Lemma filter_sorted (f : str * node -> bool) l :
  List.filter f (Py.sorted path_ltb l) = Py.sorted path_ltb (List.filter f l).
Proof.
  induction l as [|x l IH]; [done|]. simpl.
  fold (Py.sorted path_ltb l).
  rewrite filter_insert_sorted by apply sorted_StronglySorted.
  rewrite IH. by destruct (f x).
Qed.

Lemma List_filter_idemp {A} (f : A -> bool) l :
  List.filter f (List.filter f l) = List.filter f l.
Proof.
  induction l as [|x l IH]; [done|]. simpl.
  destruct (f x) eqn:Hx; simpl; by rewrite ?Hx, IH.
Qed.

Section FilterFacts.
Context {U : Py.UnicodeData}.

Lemma index_loop_filter entries skills :
  index_loop entries skills
  = index_loop (List.filter qualifies entries) skills.
Proof.
  revert skills. induction entries as [|e entries IH]; intros skills; [done|].
  simpl. rewrite index_skill_dir_qualifies.
  destruct (qualifies e) eqn:Hq; simpl.
  - rewrite index_skill_dir_qualifies, Hq.
    destruct (skill_of e); simpl; [apply IH|done].
  - apply IH.
Qed.

Lemma build_index_filter entries :
  build_index (Dir entries)
  = index_loop (Py.sorted path_ltb (List.filter qualifies entries)) [].
Proof.
  unfold build_index. simpl. by rewrite index_loop_filter, filter_sorted.
Qed.
End FilterFacts.

(** ** build_index: which directories get a record *)

Section Folders.
Context {U : Py.UnicodeData}.

(** C5, as the code has it.  When [build_index] returns, the folders of its
    records are the names of the entries of the root that qualify
    (directories with a name that is not reserved and with an entry
    [SKILL.md]), each once; no other entry gets a record.  No other entry
    brings an error either: with or without the entries that do not
    qualify, [build_index] returns the same records or raises the same
    exception. *)
Theorem build_index_folders root :
  (forall entries skills,
     root = Dir entries -> build_index root = Ok skills ->
     Permutation (map folder skills)
       (map fst (List.filter qualifies entries))) /\
  (forall entries,
     root = Dir entries ->
     build_index root = build_index (Dir (List.filter qualifies entries))).
Proof.
  split.
  - intros entries skills -> Hb. rewrite (build_index_folder_list _ _ Hb).
    apply Permutation_map, List_filter_Permutation, sorted_Permutation.
  - intros entries ->. by rewrite !build_index_filter, List_filter_idemp.
Qed.
End Folders.

Lemma build_index_folders_witness :
  Permutation (map folder index_alpha) [lit "a"; lit "0"] /\
  @build_index ascii_only tree_alpha
  = @build_index ascii_only (Dir [(lit "a", dir_alpha); (lit "0", dir_zero)]).
Proof.
  split.
  - exact (proj1 (@build_index_folders ascii_only tree_alpha)
             entries_alpha index_alpha eq_refl eq_refl).
  - exact (proj2 (@build_index_folders ascii_only tree_alpha)
             entries_alpha eq_refl).
Defined.

(** C5, as stated, fails: a skill directory with a regular [SKILL.md] and a
    directory among its [*.md] references gets no record, and [build_index]
    raises; so it does when [SKILL.md] is itself a directory. *)
Lemma build_index_raises :
  qualifies (lit "a", dir_reference_dir) = true /\
  child dir_reference_dir (lit "SKILL.md") = Some (File (lit "text")) /\
  @build_index ascii_only tree_reference_dir = Raise IsADirectoryError /\
  qualifies (lit "a", dir_skill_md_dir) = true /\
  @build_index ascii_only tree_skill_md_dir = Raise IsADirectoryError.
Proof. repeat split. Qed.

(** ** infer_title_from_markdown: the title of a reference *)

Lemma rfind_char_None c s : c ∉ s -> Py.rfind_char c s = None.
Proof.
  induction s as [|x s IH]; [done|].
  intros [Hx Hs]%not_elem_of_cons. simpl. rewrite IH by done.
  destruct (N.eqb_spec x c); [congruence|done].
Qed.

Lemma rfind_char_last c s t :
  c ∉ t -> Py.rfind_char c (s ++ c :: t) = Some (length s).
Proof.
  intros Ht. induction s as [|x s IH]; simpl.
  - by rewrite rfind_char_None, N.eqb_refl.
  - by rewrite IH.
Qed.



Lemma stem_Forall (P : N -> Prop) nm : Forall P nm -> Forall P (stem nm).
Proof.
  intros H. unfold stem. destruct (Py.rfind_char 46 nm); [|done].
  case_bool_decide; [by apply Forall_take|done].
Qed.






Section TitleCase.
Context {U : Py.UnicodeData}.




End TitleCase.


(** * Further properties *)

(** ** parse_frontmatter: documents written line by line *)

Lemma splitlines_line p :
  Forall (fun c => Py.is_linebreak c = false) p -> p <> [] ->
  Py.splitlines p = [p].
Proof.
  induction 1 as [|c p Hc Hp IH]; intros Hne; [done|].
  rewrite splitlines_cons by done.
  destruct p as [|c' p]; [done|]. by rewrite IH.
Qed.

Lemma splitlines_app_line p t :
  Forall (fun c => Py.is_linebreak c = false) p ->
  Py.splitlines (p ++ LF :: t) = p :: Py.splitlines t.
Proof.
  induction 1 as [|c p Hc Hp IH].
  - simpl. by destruct t.
  - change ((c :: p) ++ LF :: t) with (c :: (p ++ LF :: t)).
    rewrite splitlines_cons by done. by rewrite IH.
Qed.

(** Lines without line breaks, the last one not empty, come back from
    their text. *)
Lemma splitlines_text_of ls :
  Forall (Forall (fun c => Py.is_linebreak c = false)) ls ->
  last ls <> Some [] ->
  Py.splitlines (text_of ls) = ls.
Proof.
  unfold text_of. induction 1 as [|p ls Hp Hls IH]; intros Hlast; [done|].
  destruct ls as [|q ls].
  - simpl. apply splitlines_line; [done|]. by intros ->.
  - rewrite join_cons by done.
    change (p ++ [LF] ++ Py.join [LF] (q :: ls))
      with (p ++ LF :: Py.join [LF] (q :: ls)).
    rewrite splitlines_app_line by done. by rewrite IH.
Qed.

(** X1. A document written as [---], header lines, [---] and body lines
    (no line holds a line break, no header line is [---] once trimmed, the
    last body line is not empty) is read back: the body is the body lines
    joined by line feeds, and the mapping is the one of the header
    lines. *)
Theorem parse_frontmatter_render header body_lines :
  Forall (Forall (fun c => Py.is_linebreak c = false)) (header ++ body_lines) ->
  Forall (fun l => Py.strip l <> DELIM) header ->
  last body_lines <> Some [] ->
  exists m,
    parse_frontmatter (text_of (DELIM :: header ++ DELIM :: body_lines))
      = Ok (m, text_of body_lines) /\
    forall k v, m !! k = Some v <-> sets header k v.
Proof.
  intros Hnb Hh Hlast.
  set (lines := DELIM :: header ++ DELIM :: body_lines).
  assert (Py.splitlines (text_of lines) = lines) as Hlines.
  { apply splitlines_text_of.
    - apply Forall_app in Hnb as [Hnh Hnbody].
      constructor; [by repeat constructor|]. apply Forall_app. split; [done|].
      constructor; [by repeat constructor|done].
    - unfold lines. rewrite last_cons, last_app, last_cons.
      destruct (last body_lines) as [l|]; [|done].
      intros [= ->]. by destruct Hlast. }
  assert (closing_at lines (S (length header))) as He.
  { split; [lia|]. split.
    - exists DELIM. split; [|done]. unfold lines. simpl.
      by rewrite list_lookup_middle.
    - intros j l [Hj1 Hj2] Hl. destruct j as [|j]; [lia|].
      unfold lines in Hl. simpl in Hl. rewrite lookup_app_l in Hl by lia.
      rewrite Forall_forall in Hh. apply Hh.
      by apply list_elem_of_lookup_2 in Hl. }
  assert (Py.startswith DELIM (text_of lines) = true) as Hs.
  { unfold lines, text_of. rewrite join_cons by (by destruct header).
    by apply (startswith_app DELIM DELIM). }
  assert (closing_at (Py.splitlines (text_of lines)) (S (length header)))
    as He' by (by rewrite Hlines).
  eexists. split.
  - rewrite (parse_frontmatter_closing _ _ Hs He'), Hlines.
    f_equal. f_equal. unfold lines. simpl.
    rewrite (cons_middle DELIM), app_assoc.
    rewrite drop_app_length'; [done|]. rewrite length_app. simpl. lia.
  - intros k v. rewrite lookup_foldl_add_entry, lookup_empty.
    assert (Py.slice lines 1 (S (length header)) = header) as ->.
    { unfold Py.slice, lines. simpl. rewrite Nat.sub_0_r, drop_0.
      by rewrite take_app_length. }
    split; [|by left]. intros [?|[? _]]; done.
Qed.

Lemma parse_frontmatter_render_witness :
  exists m,
    parse_frontmatter
      (text_of (DELIM :: [lit "k: v"] ++ DELIM :: [lit "A"; []; lit "B"]))
      = Ok (m, text_of [lit "A"; []; lit "B"]) /\
    forall k v, m !! k = Some v <-> sets [lit "k: v"] k v.
Proof.
  apply (parse_frontmatter_render [lit "k: v"] [lit "A"; []; lit "B"]).
  - by repeat constructor.
  - by repeat constructor.
  - discriminate.
Defined.

(** ** parse_frontmatter: what a mapping and a body can hold *)

Lemma parse_frontmatter_cases text m body :
  parse_frontmatter text = Ok (m, body) ->
  (m = ∅ /\ body = text) \/
  exists e,
    Py.startswith DELIM text = true /\ closing_at (Py.splitlines text) e /\
    m = foldl add_entry ∅ (Py.slice (Py.splitlines text) 1 e) /\
    body = Py.join [LF] (drop (S e) (Py.splitlines text)).
Proof.
  intros Hp. destruct (Py.startswith DELIM text) eqn:Hs.
  - destruct (find_end_range (Py.splitlines text)) as [(e & _ & He)|[_ Hn]].
    + right. exists e. rewrite (parse_frontmatter_closing text e Hs He) in Hp.
      by injection Hp as <- <-.
    + left. rewrite (parse_frontmatter_no_closing text Hs Hn) in Hp.
      by injection Hp as <- <-.
  - left. rewrite (parse_frontmatter_no_delim text Hs) in Hp.
    by injection Hp as <- <-.
Qed.

Lemma parse_frontmatter_lookup_line text m body k v :
  parse_frontmatter text = Ok (m, body) -> m !! k = Some v ->
  exists line, line ∈ Py.splitlines text /\ header_line line k v.
Proof.
  intros Hp Hk.
  destruct (parse_frontmatter_cases _ _ _ Hp) as [[-> _]|(e & _ & _ & -> & _)].
  - by rewrite lookup_empty in Hk.
  - apply lookup_foldl_add_entry in Hk as [(i & line & Hi & He & _)|[Hk _]].
    + exists line. split; [|by apply header_entry_line].
      apply slice_lookup_Some in Hi as [_ Hi].
      by apply list_elem_of_lookup_2 in Hi.
    + by rewrite lookup_empty in Hk.
Qed.

Lemma trimmed_clean f s s' : trimmed f s s' -> clean f s'.
Proof. by intros (? & ? & _ & _ & _ & ?). Qed.

Lemma trimmed_subseteq f s s' c : trimmed f s s' -> c ∈ s' -> c ∈ s.
Proof.
  intros (pre & post & -> & _) Hc. rewrite !elem_of_app. auto.
Qed.

(** X2. In the mapping that [parse_frontmatter] returns, a key holds no
    colon and no line break and neither starts nor ends with white space;
    a value holds no line break and neither starts nor ends with a double
    quote. *)
Theorem parse_frontmatter_keys_values text m body k v :
  parse_frontmatter text = Ok (m, body) -> m !! k = Some v ->
  (58 ∉ k) /\ clean Py.is_space k /\ clean is_quote v /\
  Forall (fun c => Py.is_linebreak c = false) k /\
  Forall (fun c => Py.is_linebreak c = false) v.
Proof.
  intros Hp Hk.
  destruct (parse_frontmatter_lookup_line _ _ _ _ _ Hp Hk) as (line & Hl & Hh).
  pose proof (splitlines_no_break text) as Hnb.
  rewrite Forall_forall in Hnb. specialize (Hnb line Hl).
  rewrite Forall_forall in Hnb.
  destruct Hh as [key value k v' v Hc Htk Htv' Htv].
  split; [|split; [|split; [|split]]].
  - intros Hin. by apply Hc, (trimmed_subseteq _ _ _ _ Htk).
  - by apply trimmed_clean in Htk.
  - by apply trimmed_clean in Htv.
  - rewrite Forall_forall. intros c Hin. apply Hnb.
    apply (trimmed_subseteq _ _ _ _ Htk) in Hin.
    rewrite !elem_of_app. auto.
  - rewrite Forall_forall. intros c Hin. apply Hnb.
    apply (trimmed_subseteq _ _ _ _ Htv), (trimmed_subseteq _ _ _ _ Htv') in Hin.
    rewrite !elem_of_app. auto.
Qed.

Lemma parse_frontmatter_keys_values_witness :
  (58 ∉ lit "name") /\ clean Py.is_space (lit "name") /\
  clean is_quote (lit "Foo") /\
  Forall (fun c => Py.is_linebreak c = false) (lit "name") /\
  Forall (fun c => Py.is_linebreak c = false) (lit "Foo").
Proof.
  exact (parse_frontmatter_keys_values doc_foo
           {[lit "name" := lit "Foo"]} (lit "Body text")
           (lit "name") (lit "Foo") eq_refl eq_refl).
Defined.

Lemma splitlines_subseteq s :
  Forall (fun l => forall c, c ∈ l -> c ∈ s) (Py.splitlines s).
Proof.
  pattern s, (Py.splitlines s). apply splitlines_ind; clear s.
  - constructor.
  - intros c _. constructor; [|constructor]. by intros ? ?%elem_of_nil.
  - intros r IH. constructor; [by intros ? ?%elem_of_nil|].
    eapply Forall_impl; [exact IH|]. intros l Hl c Hc.
    do 2 apply list_elem_of_further. by apply Hl.
  - intros c c' r _ _ IH. constructor; [by intros ? ?%elem_of_nil|].
    eapply Forall_impl; [exact IH|]. intros l Hl x Hx.
    apply list_elem_of_further. by apply Hl.
  - intros c r _ _ _. constructor; [|constructor].
    intros x ->%list_elem_of_singleton. apply list_elem_of_here.
  - intros c r l ls _ _ IH. apply Forall_cons in IH as [Hl Hls].
    constructor.
    + intros x [->|Hx]%elem_of_cons; [apply list_elem_of_here|].
      apply list_elem_of_further. by apply Hl.
    + eapply Forall_impl; [exact Hls|]. intros l' Hl' x Hx.
      apply list_elem_of_further. by apply Hl'.
Qed.

(** X3. The body that [parse_frontmatter] returns is never longer than the
    text, is shorter as soon as a header was found, and holds only code
    points of the text and line feeds. *)
Theorem parse_frontmatter_body_bound text m body :
  parse_frontmatter text = Ok (m, body) ->
  (length body <= length text)%nat /\
  (body <> text -> (length body < length text)%nat) /\
  (forall c, c ∈ body -> c ∈ text \/ c = LF).
Proof.
  intros Hp.
  destruct (parse_frontmatter_cases _ _ _ Hp)
    as [[_ ->]|(e & Hs & He & _ & ->)].
  - split; [lia|]. split; [done|]. auto.
  - pose proof (length_body_closing text e Hs). split; [lia|].
    split; [done|]. intros c [Hc|(p & Hp' & Hc)]%elem_of_join.
    + right. by apply list_elem_of_singleton in Hc.
    + left. apply list_elem_of_lookup_1 in Hp' as [i Hi].
      rewrite lookup_drop in Hi. apply list_elem_of_lookup_2 in Hi.
      pose proof (splitlines_subseteq text) as Hsub.
      rewrite Forall_forall in Hsub. by apply (Hsub p).
Qed.

Lemma parse_frontmatter_body_bound_witness :
  (length (lit "Body text") <= length doc_foo)%nat /\
  (lit "Body text" <> doc_foo ->
   (length (lit "Body text") < length doc_foo)%nat) /\
  (forall c, c ∈ lit "Body text" -> c ∈ doc_foo \/ c = LF).
Proof.
  exact (parse_frontmatter_body_bound doc_foo {[lit "name" := lit "Foo"]}
           (lit "Body text") eq_refl).
Defined.

(** ** infer_title_from_markdown: headings, stems and fallback titles *)

Lemma scan_heading_Exists lines :
  Exists (fun l => Py.startswith HEADING (Py.strip l) = true) lines ->
  exists line rest,
    line ∈ lines /\ Py.strip line = HEADING ++ rest /\
    scan_heading lines = Some (Py.strip rest).
Proof.
  induction lines as [|l lines IH]; intros H; [by apply Exists_nil in H|].
  cbn [scan_heading].
  destruct (Py.startswith HEADING (Py.strip l)) eqn:Hl.
  - destruct (startswith_prefix _ _ Hl) as [rest Hrest].
    exists l, rest. split; [apply list_elem_of_here|]. split; [done|].
    by rewrite Hrest, replace1_prefix.
  - apply Exists_cons in H as [H|H]; [congruence|].
    destruct (IH H) as (line & rest & Hin & Hs & Hscan).
    exists line, rest. split; [by apply list_elem_of_further|done].
Qed.

Section HeadingFacts.
Context {U : Py.UnicodeData}.

(** X4. The title of a file with a heading does not depend on the name of
    the file, neither starts nor ends with white space and holds no line
    break. *)
Theorem infer_title_from_markdown_heading text :
  Exists (fun l => Py.startswith HEADING (Py.strip l) = true)
    (Py.splitlines text) ->
  exists t,
    (forall nm, infer_title_from_markdown nm (Some (File text)) = Ok t) /\
    clean Py.is_space t /\
    Forall (fun c => Py.is_linebreak c = false) t.
Proof.
  intros (line & rest & Hin & Hs & Hscan)%scan_heading_Exists.
  exists (Py.strip rest). split; [|split].
  - intros nm. unfold infer_title_from_markdown. simpl. by rewrite Hscan.
  - apply (trimmed_clean _ rest), trimmed_strip_by.
  - pose proof (splitlines_no_break text) as Hnb.
    rewrite Forall_forall in Hnb. specialize (Hnb line Hin).
    rewrite Forall_forall in Hnb |- *. intros c Hc. apply Hnb.
    apply (trimmed_subseteq _ _ _ _ (trimmed_strip_by _ rest)) in Hc.
    apply (trimmed_subseteq _ _ _ c (trimmed_strip_by Py.is_space line)).
    unfold Py.strip in Hs. rewrite Hs, elem_of_app. by right.
Qed.
End HeadingFacts.

Lemma infer_title_from_markdown_heading_witness :
  exists t,
    (forall nm,
       @infer_title_from_markdown ascii_only nm (Some (File doc_hello)) = Ok t) /\
    clean Py.is_space t /\
    Forall (fun c => Py.is_linebreak c = false) t.
Proof.
  apply (@infer_title_from_markdown_heading ascii_only doc_hello).
  apply Exists_cons_hd. reflexivity.
Defined.

Lemma endswith_suffix p s :
  Py.endswith p s = true -> exists base, s = base ++ p.
Proof.
  unfold Py.endswith. intros [rest Hrest]%startswith_prefix.
  exists (rev rest). apply (f_equal (@rev N)) in Hrest.
  by rewrite rev_involutive, rev_app_distr, rev_involutive in Hrest.
Qed.

(** The stem of a file name that ends in [.md], and is not [.md] itself,
    is the name without this ending. *)
Lemma stem_md nm :
  Py.endswith (lit ".md") nm = true -> nm <> lit ".md" ->
  nm = stem nm ++ lit ".md".
Proof.
  intros [base ->]%endswith_suffix Hne.
  destruct base as [|b base]; [done|].
  unfold stem. change (lit ".md") with (46 :: lit "md").
  rewrite rfind_char_last.
  2:{ by apply (bool_decide_unpack _). }
  rewrite bool_decide_eq_true_2.
  - by rewrite take_app_length.
  - rewrite length_app. simpl. lia.
Qed.

Section MissingReference.
Context {U : Py.UnicodeData}.

(** X5. A file [<base>.md] that is not there, or has no heading, gets its
    title from [<base>] alone, other dots of the name included: the
    ending [.md] does not show in it.  The file [.md] keeps its name. *)
Theorem infer_title_from_markdown_md base text :
  base <> [] ->
  Forall (fun l => Py.startswith HEADING (Py.strip l) = false)
    (Py.splitlines text) ->
  infer_title_from_markdown (base ++ lit ".md") None
    = Ok (Py.title (Py.replace_char 45 32 base)) /\
  infer_title_from_markdown (base ++ lit ".md") (Some (File text))
    = Ok (Py.title (Py.replace_char 45 32 base)) /\
  infer_title_from_markdown (lit ".md") None
    = Ok (Py.title (lit ".md")).
Proof.
  intros Hne Hnone.
  assert (stem (base ++ lit ".md") = base) as Hstem.
  { assert (base ++ lit ".md" = stem (base ++ lit ".md") ++ lit ".md") as H.
    { apply stem_md.
      - unfold Py.endswith. rewrite rev_app_distr.
        by apply startswith_app.
      - intros H. apply (f_equal length) in H. rewrite length_app in H.
        destruct base; [done|]. simpl in H. lia. }
    by apply app_inv_tail in H. }
  unfold infer_title_from_markdown, title_of_name. simpl read_text.
  rewrite Hstem, scan_heading_none by done. done.
Qed.
End MissingReference.

Lemma infer_title_from_markdown_md_witness :
  @infer_title_from_markdown ascii_only (lit "a.b-c" ++ lit ".md") None
    = Ok (@Py.title ascii_only (Py.replace_char 45 32 (lit "a.b-c"))) /\
  @infer_title_from_markdown ascii_only (lit "a.b-c" ++ lit ".md")
    (Some (File (lit "no heading")))
    = Ok (@Py.title ascii_only (Py.replace_char 45 32 (lit "a.b-c"))) /\
  @infer_title_from_markdown ascii_only (lit ".md") None
    = Ok (@Py.title ascii_only (lit ".md")).
Proof.
  apply (@infer_title_from_markdown_md ascii_only (lit "a.b-c")
           (lit "no heading")).
  - discriminate.
  - by repeat constructor.
Defined.

Section FallbackFacts.
Context {U : Py.UnicodeData}.

Lemma title_from_ascii whole i b s :
  Forall (fun c => c < 128 /\ c <> 45) s ->
  length (Py.title_from whole i b s) = length s /\
  Forall (fun c => c < 128 /\ c <> 45) (Py.title_from whole i b s).
Proof.
  intros H. revert i b. induction H as [|c s [Hc Hh] _ IH]; intros i b.
  - split; [done|constructor].
  - destruct (IH (S i) (Py.is_cased c)) as [IHl IHf].
    cbn [Py.title_from]. unfold Py.to_lower, Py.to_title.
    rewrite (proj2 (N.ltb_lt c 128) Hc).
    unfold Py.is_ascii_upper, Py.is_ascii_lower.
    destruct b.
    + destruct ((65 <=? c) && (c <=? 90)) eqn:E; simpl; rewrite IHl;
        (split; [done|]); constructor; try done.
      apply andb_true_iff in E as [?%N.leb_le ?%N.leb_le]. lia.
    + destruct ((97 <=? c) && (c <=? 122)) eqn:E; simpl; rewrite IHl;
        (split; [done|]); constructor; try done.
      apply andb_true_iff in E as [?%N.leb_le ?%N.leb_le]. lia.
Qed.

(** X6. For a file name in ASCII, the title made of the name has as many
    characters as the stem of the name, and no hyphen. *)
Theorem title_of_name_ascii nm :
  Forall (fun c => c < 128) nm ->
  length (title_of_name nm) = length (stem nm) /\ (45 ∉ title_of_name nm).
Proof.
  intros H%(stem_Forall (fun c => c < 128)).
  assert (Forall (fun c => c < 128 /\ c <> 45)
            (Py.replace_char 45 32 (stem nm))) as Hr.
  { unfold Py.replace_char. apply Forall_fmap.
    eapply Forall_impl; [exact H|]. intros c Hc. simpl.
    destruct (N.eqb_spec c 45); split; done || lia. }
  destruct (title_from_ascii (Py.replace_char 45 32 (stem nm)) 0 false _ Hr)
    as [Hl Hf].
  unfold title_of_name, Py.title. split.
  - rewrite Hl. unfold Py.replace_char. apply length_map.
  - rewrite Forall_forall in Hf. intros Hin. by destruct (Hf 45 Hin).
Qed.
End FallbackFacts.

Lemma title_of_name_ascii_witness :
  length (@title_of_name ascii_only (lit "my-skill-name.md"))
    = length (stem (lit "my-skill-name.md")) /\
  (45 ∉ @title_of_name ascii_only (lit "my-skill-name.md")).
Proof.
  apply (@title_of_name_ascii ascii_only (lit "my-skill-name.md")).
  apply Forall_forall. intros c Hc.
  apply (bool_decide_unpack _). revert c Hc. apply Forall_forall.
  by repeat constructor.
Defined.

(** ** build_index: entries that do not count *)

Section Qualifying.
Context {U : Py.UnicodeData}.

(** X7. [build_index] looks at the entries that qualify only (directories
    with a name that is not reserved and with an entry [SKILL.md]): two
    roots with the same such entries, in the same listing order, give the
    same index or the same exception, whatever else they hold. *)
Theorem build_index_qualifying entries entries' :
  List.filter qualifies entries = List.filter qualifies entries' ->
  build_index (Dir entries) = build_index (Dir entries').
Proof. intros H. by rewrite !build_index_filter, H. Qed.
End Qualifying.

Lemma build_index_qualifying_witness :
  @build_index ascii_only tree_alpha
  = @build_index ascii_only
      (Dir [(lit "a", dir_alpha); (lit "0", dir_zero)]).
Proof.
  apply (@build_index_qualifying ascii_only
           [(lit "docs", dir_docs); (lit "b", dir_b);
            (lit "README.md", File (lit "# Skills"));
            (lit "a", dir_alpha); (lit "0", dir_zero)]
           [(lit "a", dir_alpha); (lit "0", dir_zero)]).
  reflexivity.
Defined.

(** ** build_index: folders, references, defaults and exceptions *)

Lemma qualifies_not_reserved e : qualifies e = true -> e.1 ∉ RESERVED.
Proof.
  unfold qualifies. intros [[_ H]%andb_true_iff _]%andb_true_iff.
  apply negb_true_iff in H. by apply bool_decide_eq_false in H.
Qed.

Lemma endswith_app p q s :
  Py.endswith p s = true -> Py.endswith p (q ++ s) = true.
Proof.
  unfold Py.endswith. intros H. rewrite rev_app_distr. by apply startswith_app.
Qed.

Section Records.
Context {U : Py.UnicodeData}.

(** X8. No record has a reserved folder, and when the root lists no name
    twice no two records have the same folder. *)
Theorem build_index_folders_distinct entries skills :
  build_index (Dir entries) = Ok skills ->
  Forall (fun s => folder s ∉ RESERVED) skills /\
  (NoDup (map fst entries) -> NoDup (map folder skills)).
Proof.
  intros Hb. pose proof (build_index_folder_list _ _ Hb) as Hf. split.
  - apply (Forall_fmap folder (fun nm => nm ∉ RESERVED)).
    change (folder <$> skills) with (map folder skills). rewrite Hf.
    apply (Forall_fmap fst). apply Forall_forall.
    intros e He%list_elem_of_In. apply filter_In in He as [_ He].
    by apply qualifies_not_reserved.
  - intros Hnd. rewrite Hf. apply NoDup_names_filter.
    by rewrite sorted_Permutation.
Qed.

Lemma build_index_elem entries skills s :
  build_index (Dir entries) = Ok skills -> s ∈ skills ->
  exists e, e ∈ entries /\ qualifies e = true /\ skill_of e = Ok s.
Proof.
  intros Hb%build_index_spec [i Hs]%list_elem_of_lookup_1.
  destruct (Forall2_lookup_r _ _ _ _ _ Hb Hs) as (e & He & Hskill).
  apply list_elem_of_lookup_2, list_elem_of_In, filter_In in He as [He Hq].
  apply list_elem_of_In in He. rewrite sorted_Permutation in He.
  by exists e.
Qed.

Lemma collect_references_Ok_files refs acc r :
  collect_references refs acc = Ok r ->
  Forall (fun e => is_file e.2 = true) refs.
Proof.
  revert acc.
  induction refs as [|[nm [text|sub]] refs IH]; intros acc;
    [constructor| |done].
  simpl. destruct (infer_title_from_markdown nm (Some (File text))); [|done].
  simpl. intros H. constructor; [done|by eapply IH].
Qed.

(** X9. [build_index] returns only when what it reads is there to read: in
    every directory of the root that qualifies, [SKILL.md] is a file, and
    so is every entry of its [references] whose name ends in [.md].  On a
    root that is a file it raises [NotADirectoryError]. *)
Theorem build_index_reads_files :
  (forall entries skills nm d,
     build_index (Dir entries) = Ok skills ->
     (nm, d) ∈ entries -> qualifies (nm, d) = true ->
     (exists text, child d (lit "SKILL.md") = Some (File text)) /\
     Forall (fun e => is_file e.2 = true)
       (from_option glob_md [] (child d (lit "references")))) /\
  (forall text, build_index (File text) = Raise NotADirectoryError).
Proof.
  split; [|done].
  intros entries skills nm d Hb%build_index_spec He Hq.
  assert ((nm, d) ∈ List.filter qualifies (Py.sorted path_ltb entries))
    as [i Hi]%list_elem_of_lookup_1.
  { apply list_elem_of_In, filter_In. split; [|done].
    apply list_elem_of_In. by rewrite sorted_Permutation. }
  destruct (Forall2_lookup_l _ _ _ _ _ Hb Hi) as (s & _ & Hs).
  unfold skill_of in Hs. simpl in Hs.
  destruct (child d (lit "SKILL.md")) as [[text|]|]; [|done..].
  simpl in Hs. split; [by exists text|].
  destruct (parse_frontmatter text) as [[fm body]|]; [|done]. simpl in Hs.
  destruct (collect_references _ _) as [r|] eqn:Hr; [|done].
  apply collect_references_Ok_files in Hr. unfold reference_entries in Hr.
  by rewrite sorted_Permutation in Hr.
Qed.

(** X10. The references of a record are made of the entries of the
    [references] directory of its folder whose name ends in [.md], each
    once and nothing else: their files are [references/] before these
    names, and so end in [.md]. *)
Theorem build_index_references entries skills s :
  build_index (Dir entries) = Ok skills -> s ∈ skills ->
  exists d,
    (folder s, d) ∈ entries /\
    Permutation (map file (references s))
      (map reference_file
         (from_option glob_md [] (child d (lit "references")))) /\
    Forall (fun r => Py.endswith (lit ".md") (file r) = true) (references s).
Proof.
  intros Hb Hs.
  destruct (build_index_elem _ _ _ Hb Hs) as ([nm d] & He & _ & Hskill).
  apply skill_of_spec in Hskill as (Hf & Hfiles & _). simpl in *. subst nm.
  exists d. split; [done|].
  assert (Permutation (reference_entries d)
            (from_option glob_md [] (child d (lit "references")))) as Hp
    by apply sorted_Permutation.
  split.
  - rewrite Hfiles. by apply Permutation_map.
  - apply (Forall_fmap file (fun f => Py.endswith (lit ".md") f = true)).
    change (file <$> references s) with (map file (references s)).
    rewrite Hfiles. apply (Forall_fmap reference_file). rewrite Hp.
    destruct (child d (lit "references")) as [[text|refs]|]; simpl;
      try constructor.
    apply Forall_forall. intros r Hr%list_elem_of_In.
    apply filter_In in Hr as [_ Hr]. by apply endswith_app.
Qed.

(** X11. The description of a record neither starts nor ends with white
    space; and a skill whose [SKILL.md] does not start with [---], or has
    no closing [---], is indexed under the name of its folder with an
    empty description. *)
Theorem build_index_defaults entries skills s :
  build_index (Dir entries) = Ok skills -> s ∈ skills ->
  clean Py.is_space (description s) /\
  exists d text,
    (folder s, d) ∈ entries /\
    child d (lit "SKILL.md") = Some (File text) /\
    (Py.startswith DELIM text = false \/ no_closing (Py.splitlines text) ->
     name s = folder s /\ description s = []).
Proof.
  intros Hb Hs.
  destruct (build_index_elem _ _ _ Hb Hs) as ([nm d] & He & _ & Hskill).
  apply skill_of_spec in Hskill
    as (Hf & _ & text & fm & body & Hmd & Hp & Hn & Hd).
  simpl in Hf, He, Hmd, Hn, Hd. subst nm. split.
  - rewrite Hd. apply (trimmed_clean _ (default [] (fm !! lit "description"))).
    apply trimmed_strip_by.
  - exists d, text. split; [done|]. split; [done|]. intros Hnone.
    assert (fm = ∅) as ->.
    { destruct (parse_frontmatter_cases _ _ _ Hp)
        as [[-> _]|(e & Hs' & He' & _)]; [done|].
      destruct Hnone as [Hnone|Hnone]; [congruence|].
      destruct (closing_at_no_closing _ _ He' Hnone). }
    by rewrite Hn, Hd, !lookup_empty.
Qed.
End Records.

Lemma build_index_folders_distinct_witness :
  Forall (fun s => folder s ∉ RESERVED) index_alpha /\
  (NoDup (map fst entries_alpha) ->
   NoDup (map folder index_alpha)).
Proof.
  exact (@build_index_folders_distinct ascii_only entries_alpha index_alpha
           eq_refl).
Defined.

Lemma build_index_reads_files_witness :
  (exists text, child dir_alpha (lit "SKILL.md") = Some (File text)) /\
  Forall (fun e => is_file e.2 = true)
    (from_option glob_md [] (child dir_alpha (lit "references"))).
Proof.
  refine (proj1 (@build_index_reads_files ascii_only) entries_alpha
            index_alpha (lit "a") dir_alpha eq_refl _ eq_refl).
  do 3 apply list_elem_of_further. apply list_elem_of_here.
Defined.

Lemma index_alpha_second :
  {| name := lit "Alpha"; folder := lit "a"; description := lit "desc";
     references :=
       [ {| title := lit "One More"; file := lit "references/one-more.md" |};
         {| title := lit "Hello World"; file := lit "references/two.md" |} ] |}
  ∈ index_alpha.
Proof. apply list_elem_of_further, list_elem_of_here. Qed.

Lemma index_alpha_first :
  {| name := lit "0"; folder := lit "0"; description := [];
     references := [] |} ∈ index_alpha.
Proof. apply list_elem_of_here. Qed.

Lemma build_index_references_witness :
  exists d,
    (lit "a", d) ∈ entries_alpha /\
    Permutation [lit "references/one-more.md"; lit "references/two.md"]
      (map reference_file
         (from_option glob_md [] (child d (lit "references")))) /\
    Forall (fun r => Py.endswith (lit ".md") (file r) = true)
      [ {| title := lit "One More"; file := lit "references/one-more.md" |};
        {| title := lit "Hello World"; file := lit "references/two.md" |} ].
Proof.
  exact (@build_index_references ascii_only entries_alpha index_alpha _ eq_refl
           index_alpha_second).
Defined.

Lemma build_index_defaults_witness :
  clean Py.is_space [] /\
  exists d text,
    (lit "0", d) ∈ entries_alpha /\
    child d (lit "SKILL.md") = Some (File text) /\
    (Py.startswith DELIM text = false \/ no_closing (Py.splitlines text) ->
     lit "0" = lit "0" /\ @nil N = []).
Proof.
  exact (@build_index_defaults ascii_only entries_alpha index_alpha _ eq_refl
           index_alpha_first).
Defined.

(** ** main: the directory listing and the text of the index *)

Lemma child_Dir entries nm :
  child (Dir entries) nm
  = snd <$> List.find (fun e => bool_decide (e.1 = nm)) entries.
Proof. done. Qed.

Lemma child_cons e entries nm :
  child (Dir (e :: entries)) nm
  = if bool_decide (e.1 = nm) then Some e.2 else child (Dir entries) nm.
Proof. rewrite !child_Dir. simpl. by case_bool_decide. Qed.

Lemma child_put_eq entries nm x : child (Dir (put entries nm x)) nm = Some x.
Proof.
  induction entries as [|e entries IH]; simpl put.
  - rewrite child_cons. cbn [fst snd]. by rewrite bool_decide_eq_true_2.
  - case_bool_decide as He; rewrite child_cons; cbn [fst snd].
    + by rewrite bool_decide_eq_true_2.
    + by rewrite bool_decide_eq_false_2.
Qed.

Lemma child_put_ne entries nm nm' x :
  nm' <> nm -> child (Dir (put entries nm x)) nm' = child (Dir entries) nm'.
Proof.
  intros Hne. induction entries as [|e entries IH]; simpl put.
  - rewrite child_cons. cbn [fst snd]. by rewrite bool_decide_eq_false_2.
  - case_bool_decide as He; rewrite !child_cons; cbn [fst snd].
    + subst nm. by rewrite !bool_decide_eq_false_2.
    + by rewrite IH.
Qed.

Lemma put_absent entries nm x :
  child (Dir entries) nm = None -> put entries nm x = entries ++ [(nm, x)].
Proof.
  induction entries as [|e entries IH]; [done|].
  rewrite child_cons. simpl put. case_bool_decide; [done|].
  intros Hc. by rewrite IH.
Qed.

Lemma put_app_absent entries nm x y :
  child (Dir entries) nm = None ->
  put (entries ++ [(nm, y)]) nm x = entries ++ [(nm, x)].
Proof.
  induction entries as [|e entries IH]; intros Hc.
  - simpl. by rewrite bool_decide_eq_true_2.
  - rewrite child_cons in Hc. cbn [app put].
    destruct (bool_decide (e.1 = nm)); [done|]. by rewrite IH.
Qed.

Lemma put_put entries nm x y :
  put (put entries nm x) nm y = put entries nm y.
Proof.
  induction entries as [|e entries IH]; simpl.
  - by rewrite bool_decide_eq_true_2.
  - case_bool_decide as He; simpl.
    + by rewrite bool_decide_eq_true_2.
    + by rewrite bool_decide_eq_false_2, IH.
Qed.

Lemma qualifies_docs x : qualifies (DOCS, x) = false.
Proof.
  unfold qualifies. cbn [fst snd]. by destruct (is_dir x).
Qed.

Lemma filter_qualifies_put entries x :
  List.filter qualifies (put entries DOCS x) = List.filter qualifies entries.
Proof.
  induction entries as [|[nm y] entries IH]; simpl.
  - by rewrite qualifies_docs.
  - case_bool_decide as He; simpl in *.
    + subst nm. by rewrite !qualifies_docs.
    + by rewrite IH.
Qed.

Section PutFacts.
Context {U : Py.UnicodeData}.

(** Whatever stands under [docs], the index is the same. *)
Lemma build_index_put_docs entries x :
  build_index (Dir (put entries DOCS x)) = build_index (Dir entries).
Proof. by rewrite !build_index_filter, filter_qualifies_put. Qed.
End PutFacts.

Lemma Forall_join (P : N -> Prop) sep parts :
  Forall P sep -> Forall (Forall P) parts -> Forall P (Py.join sep parts).
Proof.
  intros Hsep. induction 1 as [|p ps Hp Hps IH]; [constructor|].
  destruct ps as [|q ps]; [done|].
  rewrite join_cons by done. by rewrite !Forall_app.
Qed.

Lemma Forall_concat (P : N -> Prop) parts :
  Forall (Forall P) parts -> Forall P (concat parts).
Proof.
  induction 1 as [|p ps Hp Hps IH]; simpl; [constructor|].
  by rewrite Forall_app.
Qed.

Lemma json_escape_no_CR c : Forall (fun x => x <> CR) (json_escape c).
Proof.
  unfold json_escape, CR.
  repeat match goal with
         | |- context [if ?b then _ else _] => destruct b eqn:?
         end;
    try (by repeat constructor).
  - apply Forall_app. split; [by repeat constructor|].
    assert (forall n, hex_digit n <> 13) as Hhex
      by (intros n; unfold hex_digit; destruct (n <? 10); lia).
    repeat (constructor; [apply Hhex|]). constructor.
  - constructor; [|constructor]. intros ->. done.
Qed.

Lemma json_string_no_CR s : Forall (fun x => x <> CR) (json_string s).
Proof.
  unfold json_string. rewrite !Forall_app. split; [by repeat constructor|].
  split; [|by repeat constructor].
  apply Forall_concat, Forall_fmap, Forall_forall. intros c _.
  apply json_escape_no_CR.
Qed.

Lemma newline_indent_no_CR level :
  Forall (fun x => x <> CR) (newline_indent level).
Proof.
  unfold newline_indent. apply Forall_app. split; [by repeat constructor|].
  apply Forall_concat, Forall_replicate. by repeat constructor.
Qed.

Lemma json_list_no_CR level items :
  Forall (Forall (fun x => x <> CR)) items ->
  Forall (fun x => x <> CR) (json_list level items).
Proof.
  intros H. unfold json_list. destruct items as [|i items];
    [by repeat constructor|].
  rewrite !Forall_app. repeat split; try apply newline_indent_no_CR;
    try (by repeat constructor).
  apply Forall_join; [|done].
  apply Forall_app. split; [by repeat constructor|apply newline_indent_no_CR].
Qed.

Lemma json_object_no_CR level members :
  Forall (fun kv => Forall (fun x => x <> CR) kv.2) members ->
  Forall (fun x => x <> CR) (json_object level members).
Proof.
  intros H. unfold json_object.
  rewrite !Forall_app. repeat split; try apply newline_indent_no_CR;
    try (by repeat constructor).
  apply Forall_join.
  - apply Forall_app. split; [by repeat constructor|apply newline_indent_no_CR].
  - apply Forall_fmap. eapply Forall_impl; [exact H|]. intros kv Hkv.
    unfold compose. cbv beta. rewrite !Forall_app.
    split; [apply json_string_no_CR|].
    split; [by repeat constructor|done].
Qed.

(** The text of the index holds no carriage return. *)
Lemma json_dumps_no_CR skills : Forall (fun x => x <> CR) (json_dumps skills).
Proof.
  unfold json_dumps. apply json_list_no_CR, Forall_fmap, Forall_forall.
  intros s _. apply json_object_no_CR.
  repeat (constructor; [try apply json_string_no_CR|]); [|constructor].
  apply json_list_no_CR, Forall_fmap, Forall_forall. intros r _.
  apply json_object_no_CR.
  repeat (constructor; [apply json_string_no_CR|]). constructor.
Qed.

Lemma universal_newlines_no_CR s :
  Forall (fun x => x <> CR) s -> universal_newlines s = s.
Proof.
  induction 1 as [|c s Hc _ IH]; [done|]. simpl.
  destruct (N.eqb_spec c CR); [done|]. by rewrite IH.
Qed.

(** ** main: its steps *)

Lemma made_docs entries docs :
  docs_entries entries = Some docs ->
  child (Dir (made entries)) DOCS = Some (Dir docs).
Proof.
  unfold docs_entries, made.
  destruct (child (Dir entries) DOCS) as [[text|docs']|] eqn:Hc; [done| |].
  - by intros [= <-].
  - intros [= <-]. apply put_absent with (x := Dir []) in Hc as <-.
    apply child_put_eq.
Qed.

Lemma put_made entries x : put (made entries) DOCS x = put entries DOCS x.
Proof.
  unfold made. destruct (child (Dir entries) DOCS) eqn:Hc; [done|].
  by rewrite put_app_absent, put_absent.
Qed.

Lemma child_made_ne entries nm :
  nm <> DOCS -> child (Dir (made entries)) nm = child (Dir entries) nm.
Proof.
  intros Hne. unfold made. destruct (child (Dir entries) DOCS) eqn:Hc; [done|].
  rewrite <- (put_absent _ _ (Dir []) Hc). by apply child_put_ne.
Qed.

Section Steps.
Context {U : Py.UnicodeData} {T : Terminal}.

Lemma build_index_made entries :
  build_index (Dir (made entries)) = build_index (Dir entries).
Proof.
  unfold made. destruct (child (Dir entries) DOCS) eqn:Hc; [done|].
  rewrite <- (put_absent _ _ (Dir []) Hc). apply build_index_put_docs.
Qed.

Lemma mkdir_docs_run entries out :
  mkdir_docs {| tree := Dir entries; stdout := out |}
  = match docs_entries entries with
    | Some _ => ({| tree := Dir (made entries); stdout := out |}, Returned tt)
    | None => ({| tree := Dir entries; stdout := out |}, Raised FileExistsError)
    end.
Proof.
  unfold mkdir_docs, docs_entries, made. simpl tree. simpl stdout.
  by destruct (child (Dir entries) DOCS) as [[|]|].
Qed.

Lemma write_output_run entries docs out text :
  child (Dir entries) DOCS = Some (Dir docs) ->
  write_output text {| tree := Dir entries; stdout := out |}
  = match child (Dir docs) SKILLS_JSON with
    | Some (Dir _) =>
        ({| tree := Dir entries; stdout := out |},
         Raised (Propagated IsADirectoryError))
    | _ =>
        if utf8_encodable text
        then ({| tree := Dir (put entries DOCS
                                (Dir (put docs SKILLS_JSON
                                        (File (universal_newlines text)))));
                 stdout := out |}, Returned tt)
        else ({| tree := Dir (put entries DOCS
                                (Dir (put docs SKILLS_JSON (File []))));
                 stdout := out |}, Raised UnicodeEncodeError)
    end.
Proof.
  intros Hc. unfold write_output. simpl tree. by rewrite Hc.
Qed.

Lemma print_names_run skills w w' o :
  print_names skills w = (w', o) ->
  tree w' = tree w /\
  exists k, stdout w' = stdout w ++ take k (map name_line skills) /\
    (o = Returned tt -> stdout w' = stdout w ++ map name_line skills) /\
    (o = Returned tt ->
     Forall (fun s => terminal_accepts s = true) (map name_line skills)).
Proof.
  revert w. induction skills as [|s skills IH]; intros w.
  - simpl. intros [= <- <-]. split; [done|]. exists 0%nat.
    simpl. rewrite app_nil_r. repeat split; done || constructor.
  - cbn [print_names]. unfold mbind, io_bind, print at 1.
    fold (name_line s).
    destruct (terminal_accepts (name_line s)) eqn:Ha.
    + intros (Ht & k & Hk & Hall & Hacc)%IH. simpl in Ht, Hk, Hall.
      split; [done|]. exists (S k). rewrite <- app_assoc in Hk, Hall.
      repeat split; try done.
      intros Ho. constructor; [done|by apply Hacc].
    + intros [= <- <-]. split; [done|]. exists 0%nat.
      simpl. rewrite app_nil_r. by repeat split.
Qed.

Lemma print_names_accepted skills w :
  Forall (fun s => terminal_accepts s = true) (map name_line skills) ->
  print_names skills w
  = ({| tree := tree w; stdout := stdout w ++ map name_line skills |},
     Returned tt).
Proof.
  revert w. induction skills as [|s skills IH]; intros w H.
  - simpl. rewrite app_nil_r. by destruct w.
  - apply Forall_cons in H as [Hs H].
    cbn [print_names]. unfold mbind, io_bind, print at 1.
    fold (name_line s). rewrite Hs, (IH _ H). simpl.
    by rewrite <- app_assoc.
Qed.
End Steps.

Section Runs.
Context {U : Py.UnicodeData} {T : Terminal}.

Lemma print_report_run root_path skills w w' o :
  print_report root_path skills w = (w', o) ->
  tree w' = tree w /\
  exists k, stdout w' = stdout w ++ take k (report root_path skills) /\
    (o = Returned tt ->
     stdout w' = stdout w ++ report root_path skills /\
     Forall (fun s => terminal_accepts s = true) (report root_path skills)).
Proof.
  unfold print_report, report, mbind, io_bind, print.
  set (l1 := [9989] ++ _). set (l2 := lit "   Found " ++ _).
  destruct (terminal_accepts l1) eqn:H1.
  2:{ intros [= <- <-]. split; [done|]. exists 0%nat. simpl.
      by rewrite app_nil_r. }
  simpl stdout. simpl tree.
  destruct (terminal_accepts l2) eqn:H2.
  2:{ intros [= <- <-]. split; [done|]. exists 1%nat. by simpl. }
  intros (Ht & k & Hk & Hall & Hacc)%print_names_run.
  simpl in Ht, Hk, Hall. split; [done|]. exists (S (S k)).
  fold (name_line) in *. rewrite <- !app_assoc in Hk, Hall. simpl in Hk, Hall.
  split; [done|]. intros Ho. split; [by apply Hall|].
  repeat (constructor; [done|]). by apply Hacc.
Qed.

Lemma print_report_accepted root_path skills w :
  Forall (fun s => terminal_accepts s = true) (report root_path skills) ->
  print_report root_path skills w
  = ({| tree := tree w; stdout := stdout w ++ report root_path skills |},
     Returned tt).
Proof.
  unfold print_report, report, mbind, io_bind, print.
  set (l1 := [9989] ++ _). set (l2 := lit "   Found " ++ _).
  intros (H1 & (H2 & H)%Forall_cons)%Forall_cons.
  rewrite H1. simpl stdout. simpl tree. rewrite H2.
  rewrite print_names_accepted by done. simpl.
  by rewrite <- !app_assoc.
Qed.

(** The run of [main], case by case. *)
Lemma main_run root_path entries out :
  main root_path {| tree := Dir entries; stdout := out |}
  = match docs_entries entries with
    | None => ({| tree := Dir entries; stdout := out |}, Raised FileExistsError)
    | Some docs =>
        match build_index (Dir entries) with
        | Raise e =>
            ({| tree := Dir (made entries); stdout := out |},
             Raised (Propagated e))
        | Ok skills =>
            match child (Dir docs) SKILLS_JSON with
            | Some (Dir _) =>
                ({| tree := Dir (made entries); stdout := out |},
                 Raised (Propagated IsADirectoryError))
            | _ =>
                if utf8_encodable (json_dumps skills)
                then print_report root_path skills
                       {| tree := written entries docs (json_dumps skills);
                          stdout := out |}
                else ({| tree := written entries docs []; stdout := out |},
                      Raised UnicodeEncodeError)
            end
        end
    end.
Proof.
  unfold main. unfold mbind at 1. unfold io_bind at 1.
  rewrite mkdir_docs_run.
  destruct (docs_entries entries) as [docs|] eqn:Hd; [|done].
  unfold mbind at 1. unfold io_bind at 1. unfold run_build_index.
  simpl tree. rewrite build_index_made.
  destruct (build_index (Dir entries)) as [skills|e]; [|done].
  unfold mbind at 1. unfold io_bind at 1.
  rewrite (write_output_run _ docs) by (by apply made_docs).
  rewrite !put_made, (universal_newlines_no_CR (json_dumps skills))
    by apply json_dumps_no_CR.
  unfold written.
  destruct (child (Dir docs) SKILLS_JSON) as [[text|d]|]; try done;
    by destruct (utf8_encodable (json_dumps skills)).
Qed.
End Runs.

(** ** main: what a run leaves behind *)

Section MainFacts.
Context {U : Py.UnicodeData} {T : Terminal}.

Lemma main_file root_path text out :
  main root_path {| tree := File text; stdout := out |}
  = ({| tree := File text; stdout := out |},
     Raised (Propagated NotADirectoryError)).
Proof. done. Qed.

Lemma child_written_docs entries docs text :
  child (written entries docs text) DOCS
  = Some (Dir (put docs SKILLS_JSON (File text))).
Proof. apply child_put_eq. Qed.

(** What a run that gets to the calls of [print] is made of. *)
Lemma main_printing root_path entries out w' o :
  main root_path {| tree := Dir entries; stdout := out |} = (w', o) ->
  (stdout w' = out /\ o <> Returned tt) \/
  exists docs skills,
    docs_entries entries = Some docs /\
    build_index (Dir entries) = Ok skills /\
    (forall d, child (Dir docs) SKILLS_JSON <> Some (Dir d)) /\
    utf8_encodable (json_dumps skills) = true /\
    print_report root_path skills
      {| tree := written entries docs (json_dumps skills); stdout := out |}
    = (w', o).
Proof.
  rewrite main_run.
  destruct (docs_entries entries) as [docs|] eqn:Hd;
    [|intros [= <- <-]; by left].
  destruct (build_index (Dir entries)) as [skills|e];
    [|intros [= <- <-]; by left].
  destruct (utf8_encodable (json_dumps skills)) eqn:He.
  - destruct (child (Dir docs) SKILLS_JSON) as [[text|d]|] eqn:Hc.
    + intros Hp. right. exists docs, skills. split; [done|]. split; [done|].
      split; [by intros d; rewrite Hc|]. by split.
    + intros [= <- <-]. by left.
    + intros Hp. right. exists docs, skills. split; [done|]. split; [done|].
      split; [by intros d; rewrite Hc|]. by split.
  - destruct (child (Dir docs) SKILLS_JSON) as [[text|d]|];
      intros [= <- <-]; by left.
Qed.

(** X12. When [main] returns, [docs/skills.json] reads as the serialized
    index of the tree that [main] found, and what was printed is the
    report on this index: the path, the number of skills and their names. *)
Theorem main_writes_index root_path w w' :
  main root_path w = (w', Returned tt) ->
  exists skills docs,
    build_index (tree w) = Ok skills /\
    child (tree w') DOCS = Some docs /\
    read_text (child docs SKILLS_JSON) = Ok (json_dumps skills) /\
    stdout w' = stdout w ++ report root_path skills.
Proof.
  destruct w as [[text|entries] out]; [by rewrite main_file|].
  intros [[_ Ho]|(docs & skills & Hd & Hb & Hc & He & Hp)]%main_printing;
    [done|].
  apply print_report_run in Hp as (Ht & _ & _ & Hall).
  destruct (Hall eq_refl) as [Hs _]. simpl in Ht, Hs.
  exists skills, (Dir (put docs SKILLS_JSON (File (json_dumps skills)))).
  split; [done|]. rewrite Ht, child_written_docs.
  split; [done|]. split; [|done]. by rewrite child_put_eq.
Qed.

(** X13. Whether it returns or raises, [main] touches nothing but [docs]
    under the root and nothing but [skills.json] under [docs]. *)
Theorem main_frame root_path w w' o :
  main root_path w = (w', o) ->
  is_dir (tree w') = is_dir (tree w) /\
  (forall nm, nm <> DOCS -> child (tree w') nm = child (tree w) nm) /\
  (forall docs docs' nm,
     child (tree w) DOCS = Some docs -> child (tree w') DOCS = Some docs' ->
     nm <> SKILLS_JSON -> child docs' nm = child docs nm).
Proof.
  destruct w as [[text|entries] out].
  { rewrite main_file. intros [= <- <-]. simpl. split; [done|].
    split; [done|]. by intros ? ? ? [= <-] [= <-]. }
  intros Hm.
  assert (tree w' = Dir entries \/ tree w' = Dir (made entries) \/
          exists docs text,
            docs_entries entries = Some docs /\
            tree w' = written entries docs text) as Ht.
  { pose proof Hm as Hm'. rewrite main_run in Hm'.
    destruct (docs_entries entries) as [docs|] eqn:Hd;
      [|injection Hm' as <- _; by left].
    destruct (build_index (Dir entries)) as [skills|e];
      [|injection Hm' as <- _; right; by left].
    destruct (child (Dir docs) SKILLS_JSON) as [[?|?]|];
      try (injection Hm' as <- _; right; by left);
      (destruct (utf8_encodable (json_dumps skills));
       [apply print_report_run in Hm' as [-> _]|injection Hm' as <- _];
       right; right; by eexists _, _). }
  simpl tree. destruct Ht as [->|[->|(docs1 & text & Hd & ->)]].
  - split; [done|]. split; [done|]. intros ? ? ? -> [= <-]. done.
  - split; [done|]. split; [by intros nm; apply child_made_ne|].
    intros docs docs' nm Hdocs. unfold made. rewrite Hdocs.
    rewrite Hdocs. by intros [= <-].
  - split; [done|]. unfold written.
    split; [by intros nm; apply child_put_ne|].
    intros docs docs' nm Hdocs. rewrite child_put_eq. intros [= <-] Hne.
    rewrite child_put_ne by done.
    unfold docs_entries in Hd. rewrite Hdocs in Hd.
    destruct docs as [|docs]; [done|]. by injection Hd as ->.
Qed.

(** X14. A second run of [main] after one that returned returns too, leaves
    the tree as the first run left it, and prints the same report again:
    the index file that [main] writes is not indexed. *)
Theorem main_idempotent root_path w w' :
  main root_path w = (w', Returned tt) ->
  main root_path w'
  = ({| tree := tree w';
        stdout := stdout w' ++ drop (length (stdout w)) (stdout w') |},
     Returned tt).
Proof.
  destruct w as [[text|entries] out]; [by rewrite main_file|].
  intros [[_ Ho]|(docs & skills & Hd & Hb & Hc & He & Hp)]%main_printing;
    [done|].
  apply print_report_run in Hp as (Ht & _ & _ & Hall).
  destruct (Hall eq_refl) as [Hs Hacc]. simpl in Ht, Hs.
  destruct w' as [t' out']. simpl in Ht, Hs. subst t' out'. simpl.
  rewrite drop_app_length. unfold written. rewrite main_run.
  unfold docs_entries. rewrite child_put_eq, build_index_put_docs, Hb.
  rewrite child_put_eq, He, print_report_accepted by done.
  unfold written. simpl. by rewrite !put_put.
Qed.

(** X15. [main] prints nothing before the index is written: whatever the
    outcome, once something was printed [docs/skills.json] reads as the
    serialized index of the tree that [main] found. *)
Theorem main_reports_after_writing root_path w w' o :
  main root_path w = (w', o) -> stdout w' <> stdout w ->
  exists skills docs,
    build_index (tree w) = Ok skills /\
    child (tree w') DOCS = Some docs /\
    read_text (child docs SKILLS_JSON) = Ok (json_dumps skills).
Proof.
  destruct w as [[text|entries] out].
  { rewrite main_file. by intros [= <- <-]. }
  intros [[Hout _]|(docs & skills & Hd & Hb & Hc & He & Hp)]%main_printing;
    [done|]. intros _.
  apply print_report_run in Hp as (Ht & _). simpl in Ht.
  exists skills, (Dir (put docs SKILLS_JSON (File (json_dumps skills)))).
  split; [done|]. rewrite Ht, child_written_docs.
  split; [done|]. by rewrite child_put_eq.
Qed.

Lemma print_report_Raised root_path skills w w' f :
  print_report root_path skills w = (w', Raised f) -> f = UnicodeEncodeError.
Proof.
  unfold print_report, mbind, io_bind, print.
  destruct (terminal_accepts _); [|by intros [= _ <-]].
  destruct (terminal_accepts _); [|by intros [= _ <-]].
  generalize ({| tree := tree
                   {| tree := tree w;
                      stdout := stdout w
                        ++ [[9989] ++ lit " Built skills index: "
                            ++ joinpath (joinpath root_path DOCS) SKILLS_JSON] |};
                 stdout := stdout
                   {| tree := tree w;
                      stdout := stdout w
                        ++ [[9989] ++ lit " Built skills index: "
                            ++ joinpath (joinpath root_path DOCS) SKILLS_JSON] |}
                   ++ [lit "   Found " ++ lit (pretty (length skills))
                       ++ lit " skill(s)"] |}).
  induction skills as [|s skills IH]; intros w0; [done|].
  cbn [print_names]. unfold mbind, io_bind, print at 1.
  destruct (terminal_accepts _); [apply IH|by intros [= _ <-]].
Qed.

(** X16. [main] raises [FileExistsError] exactly when [docs] is a regular
    file, and then it has changed and printed nothing. *)
Theorem main_FileExistsError root_path w w' :
  main root_path w = (w', Raised FileExistsError) <->
  w' = w /\ exists text, child (tree w) DOCS = Some (File text).
Proof.
  destruct w as [[text|entries] out].
  { rewrite main_file. split; [done|]. by intros [_ [? ?]]. }
  rewrite main_run. unfold docs_entries. simpl tree. split.
  - destruct (child (Dir entries) DOCS) as [[text|docs]|] eqn:Hd.
    + intros [= <-]. split; [done|]. by exists text.
    + destruct (build_index (Dir entries)) as [skills|e]; [|done].
      destruct (child (Dir docs) SKILLS_JSON) as [[?|?]|]; try done;
        (destruct (utf8_encodable (json_dumps skills)); [|done]);
        by intros ?%print_report_Raised.
    + destruct (build_index (Dir entries)) as [skills|e]; [|done].
      simpl. destruct (utf8_encodable (json_dumps skills)); [|done].
      by intros ?%print_report_Raised.
  - intros [-> [text ->]]. done.
Qed.
End MainFacts.

Section MainReturns.
Context {U : Py.UnicodeData} {T : Terminal}.

(** X17. [main] returns only when the root is a directory, [docs] is
    not a regular file, [docs/skills.json] is not a directory,
    [build_index] returns, the text of the index holds no surrogate and
    the terminal takes every line of the report. *)
Theorem main_returns_only_if root_path w w' :
  main root_path w = (w', Returned tt) ->
  exists entries docs skills,
    tree w = Dir entries /\
    docs_entries entries = Some docs /\
    (forall d, child (Dir docs) SKILLS_JSON <> Some (Dir d)) /\
    build_index (tree w) = Ok skills /\
    utf8_encodable (json_dumps skills) = true /\
    Forall (fun s => terminal_accepts s = true) (report root_path skills).
Proof.
  destruct w as [[text|entries] out].
  { by rewrite main_file. }
  intros [[_ Ho]|(docs & skills & Hd & Hb & Hc & He & Hp)]%main_printing;
    [done|].
  apply print_report_run in Hp as (_ & _ & _ & Hall).
  destruct (Hall eq_refl) as [_ Hacc].
  by exists entries, docs, skills.
Qed.
End MainReturns.

Example main_alpha :
  @main ascii_only utf8_terminal (lit "/repo") world_alpha
  = (ran_alpha, Returned tt).
Proof. reflexivity. Qed.

Lemma main_writes_index_witness :
  exists skills docs,
    @build_index ascii_only (tree world_alpha) = Ok skills /\
    child (tree ran_alpha) DOCS = Some docs /\
    read_text (child docs SKILLS_JSON) = Ok (json_dumps skills) /\
    stdout ran_alpha
    = stdout world_alpha ++ @report (lit "/repo") skills.
Proof.
  exact (@main_writes_index ascii_only utf8_terminal (lit "/repo")
           world_alpha ran_alpha eq_refl).
Defined.

Lemma main_frame_witness :
  is_dir (tree ran_alpha) = is_dir (tree world_alpha) /\
  (forall nm, nm <> DOCS ->
     child (tree ran_alpha) nm = child (tree world_alpha) nm) /\
  (forall docs docs' nm,
     child (tree world_alpha) DOCS = Some docs ->
     child (tree ran_alpha) DOCS = Some docs' ->
     nm <> SKILLS_JSON -> child docs' nm = child docs nm).
Proof.
  exact (@main_frame ascii_only utf8_terminal (lit "/repo")
           world_alpha ran_alpha (Returned tt) eq_refl).
Defined.

Lemma main_idempotent_witness :
  @main ascii_only utf8_terminal (lit "/repo") ran_alpha
  = ({| tree := tree ran_alpha;
        stdout := stdout ran_alpha
                    ++ drop (length (stdout world_alpha)) (stdout ran_alpha) |},
     Returned tt).
Proof.
  exact (@main_idempotent ascii_only utf8_terminal (lit "/repo")
           world_alpha ran_alpha eq_refl).
Defined.

Lemma main_reports_after_writing_witness :
  exists skills docs,
    @build_index ascii_only (tree world_alpha) = Ok skills /\
    child (tree ran_alpha) DOCS = Some docs /\
    read_text (child docs SKILLS_JSON) = Ok (json_dumps skills).
Proof.
  apply (@main_reports_after_writing ascii_only utf8_terminal (lit "/repo")
           world_alpha ran_alpha (Returned tt) eq_refl).
  discriminate.
Defined.

Lemma main_FileExistsError_witness :
  @main ascii_only utf8_terminal (lit "/repo") world_docs_file
  = (world_docs_file, Raised FileExistsError).
Proof.
  apply (proj2 (@main_FileExistsError ascii_only utf8_terminal (lit "/repo")
                  world_docs_file world_docs_file)).
  split; [reflexivity|]. by exists (lit "notes").
Defined.

Lemma main_returns_only_if_witness :
  exists entries docs skills,
    tree world_alpha = Dir entries /\
    docs_entries entries = Some docs /\
    (forall d, child (Dir docs) SKILLS_JSON <> Some (Dir d)) /\
    @build_index ascii_only (tree world_alpha) = Ok skills /\
    utf8_encodable (json_dumps skills) = true /\
    Forall (fun s => @terminal_accepts utf8_terminal s = true)
      (@report (lit "/repo") skills).
Proof.
  exact (@main_returns_only_if ascii_only utf8_terminal (lit "/repo")
           world_alpha ran_alpha eq_refl).
Defined.
